(** * bro_tools: the Bro log reader ([bro_tools/log_reader.py])

    A shallow embedding of [BroLogReader] and of the casters it uses,
    followed by the properties of the decoder and of the line loop.

    Python values are modelled as follows.
    - [str] is a sequence of Unicode code points ([list N]); [py "abc"]
      turns a literal into one.
    - An exception is a value of [exn]; a computation that may raise
      returns [res A].
    - The metadata dictionary [_metadata] is a [gmap str mvalue].
    - A record ([dict(zip(fields, values))]) is an association list with
      the insertion behaviour of a Python dict.
    - What the interpreter and the modules [ipaddress], [datetime] and
      [unicodedata] compute is not code of this package: it is an instance
      of the class [Runtime], and every theorem holds for all instances. *)

From Stdlib Require Import ZArith NArith Ascii String List Lia Bool.
From stdpp Require Import base option list gmap.

Set Default Proof Using "Type".
Local Open Scope N_scope.

(** ** Strings *)

(** A character is its code point, a string the list of its code points. *)
Abbreviation char := N (only parsing).
Abbreviation str := (list N) (only parsing).

Definition py (s : string) : str :=
  map N_of_ascii (list_ascii_of_string s).

(** [s.startswith(c)] for a one-character [c]. *)
Definition startswith (c : char) (s : str) : bool :=
  match s with
  | x :: _ => bool_decide (x = c)
  | [] => false
  end.

(** [s.lstrip(c)]: every leading [c] goes. *)
Fixpoint lstrip (c : char) (s : str) : str :=
  match s with
  | x :: s' => if decide (x = c) then lstrip c s' else s
  | [] => []
  end.

(** [s.rstrip(c)]: every trailing [c] goes. *)
Definition rstrip (c : char) (s : str) : str :=
  reverse (lstrip c (reverse s)).

(** [s.startswith(p)] for a string [p]. *)
Fixpoint has_prefix (p s : str) : bool :=
  match p, s with
  | [], _ => true
  | a :: p', b :: s' => bool_decide (a = b) && has_prefix p' s'
  | _ :: _, [] => false
  end.

(** The scan of [s.split(sep)] for a non-empty [sep]: [skip] counts the
    characters of a separator occurrence still to be passed over, [cur]
    holds the current piece, reversed. *)
Fixpoint split_go (sep : str) (skip : nat) (cur : str) (s : str) : list str :=
  match s with
  | [] => [reverse cur]
  | c :: s' =>
      match skip with
      | S k => split_go sep k cur s'
      | O =>
          if has_prefix sep s
          then reverse cur :: split_go sep (pred (length sep)) [] s'
          else split_go sep 0 (c :: cur) s'
      end
  end.

Definition split (sep : str) (s : str) : list str := split_go sep 0 [] s.

(** The longest prefix of [s] whose characters satisfy [p], and the rest. *)
Fixpoint span (p : char -> bool) (s : str) : str * str :=
  match s with
  | c :: s' =>
      if p c then let '(a, b) := span p s' in (c :: a, b) else ([], s)
  | [] => ([], [])
  end.

(** ** Exceptions and results *)

(** The messages of the [ValueError]s this module raises, kept as data:
    - [NotBetween val minv maxv] is ['{} not between {} and {}'],
    - [NotLessThan val maxv] is ['{} not less than {}'],
    - [NotGreaterEq val minv] is ['{} not greater than or equal to {}'],
    - [NotBoolLike v] is ['{!r} not bool-like'],
    and those of the builtins it calls. *)
Inductive value_error :=
  | NotBetween (val minv maxv : Z)
  | NotLessThan (val maxv : Z)
  | NotGreaterEq (val minv : Z)
  | NotBoolLike (v : str)
  | InvalidLiteral (s : str)
  | EmptySeparator
  | NotEnoughValues
  | LibraryValueError.

Inductive exn :=
  | KeyError (k : str)
  | AttributeError (name : str)
  | ValueError (e : value_error)
  | TypeError
  | BroLogFormatError (rest : str)
  | UnicodeDecodeError
  | UnicodeEncodeError
  | OverflowError
  | OSError
  | RecursionError.

Inductive res (A : Type) :=
  | Ok (a : A)
  | Raise (e : exn).
Arguments Ok {A} a.
Arguments Raise {A} e.

Global Instance res_ret : MRet res := @Ok.
Global Instance res_bind : MBind res := fun A B f m =>
  match m with
  | Ok a => f a
  | Raise e => Raise e
  end.

(** ** The interpreter and the library modules *)

(** What [log_reader.py] takes from outside: the objects of [ipaddress]
    and [datetime] with their constructors, [float], and the Unicode
    character database for code points beyond ASCII. [==] on the library
    objects is their equality here. *)
Class Runtime := {
  addr : Type;
  timedelta : Type;
  datetime : Type;
  float : Type;
  addr_eq_dec :: EqDecision addr;
  timedelta_eq_dec :: EqDecision timedelta;
  datetime_eq_dec :: EqDecision datetime;
  (** [ipaddress.ip_address(x)] *)
  ip_address : str -> res addr;
  (** [float(x)] *)
  py_float : str -> res float;
  (** [datetime.timedelta(seconds=f)] *)
  timedelta_seconds : float -> res timedelta;
  (** [datetime.datetime.fromtimestamp(f)] *)
  datetime_fromtimestamp : float -> res datetime;
  (** [datetime.datetime( *args )] on integer arguments *)
  datetime_new : list Z -> res datetime;
  (** [str.isalnum], [str.isspace] and the decimal digit value of one
      code point, consulted for code points from 128 on only *)
  uni_isalnum : char -> bool;
  uni_isspace : char -> bool;
  uni_todecimal : char -> option N;
  (** [unicodedata.lookup(name)], for the escape [\N{name}] *)
  ucd_lookup : str -> option char;
}.

(** ** Values *)

Section Values.
Context {RT : Runtime}.

(** A decoded cell. [VSet l] is the Python set whose elements are those
    of [l]; [l] has no duplicates and its order carries no meaning. *)
#[warnings="-register-all"] Inductive DecodedValue :=
  | VNone
  | VStr (s : str)
  | VBool (b : bool)
  | VInt (z : Z)
  | VAddr (a : addr)
  | VTimedelta (d : timedelta)
  | VDatetime (t : datetime)
  | VTuple (l : list DecodedValue)
  | VSet (l : list DecodedValue).

Fixpoint value_eqb (a b : DecodedValue) {struct a} : bool :=
  let fix all2 (l1 l2 : list DecodedValue) {struct l1} : bool :=
    match l1, l2 with
    | [], [] => true
    | x :: l1', y :: l2' => value_eqb x y && all2 l1' l2'
    | _, _ => false
    end in
  match a, b with
  | VNone, VNone => true
  | VStr s, VStr t => bool_decide (s = t)
  | VBool x, VBool y => bool_decide (x = y)
  | VInt x, VInt y => bool_decide (x = y)
  | VAddr x, VAddr y => bool_decide (x = y)
  | VTimedelta x, VTimedelta y => bool_decide (x = y)
  | VDatetime x, VDatetime y => bool_decide (x = y)
  | VTuple l1, VTuple l2 => all2 l1 l2
  | VSet l1, VSet l2 => all2 l1 l2
  | _, _ => false
  end.

(** The induction principle that goes under [VTuple] and [VSet]. *)
Lemma value_ind' (P : DecodedValue -> Prop) :
  P VNone -> (forall s, P (VStr s)) -> (forall b, P (VBool b)) ->
  (forall z, P (VInt z)) -> (forall a, P (VAddr a)) ->
  (forall d, P (VTimedelta d)) -> (forall t, P (VDatetime t)) ->
  (forall l, Forall P l -> P (VTuple l)) ->
  (forall l, Forall P l -> P (VSet l)) ->
  forall v, P v.
Proof.
  intros HN HS HB HI HA HT HD HTu HSe.
  fix IH 1. intros [| |b| | | | |l|l].
  - exact HN.
  - apply HS.
  - apply HB.
  - apply HI.
  - apply HA.
  - apply HT.
  - apply HD.
  - apply HTu. induction l as [|x l IHl]; constructor; [apply IH | exact IHl].
  - apply HSe. induction l as [|x l IHl]; constructor; [apply IH | exact IHl].
Qed.

Lemma value_eqb_eq (a b : DecodedValue) : value_eqb a b = true <-> a = b.
Proof.
  revert b. induction a as [| | | | | | |l IH|l IH] using value_ind';
    intros [| | | | | | |l2|l2]; simpl;
    rewrite ?bool_decide_eq_true; try (split; congruence).
  all: revert l2; induction IH as [|x l Hx _ IHl]; intros [|y l2];
    try (split; congruence).
  all: rewrite andb_true_iff, Hx; specialize (IHl l2); split.
  all: try (intros [-> H]; apply IHl in H; congruence).
  all: intros H; injection H as -> ->; split; [reflexivity | apply IHl; reflexivity].
Qed.

Global Instance value_eq_dec : EqDecision DecodedValue.
Proof.
  intros a b. destruct (value_eqb a b) eqn:E.
  - left. apply value_eqb_eq, E.
  - right. intros H. apply value_eqb_eq in H. congruence.
Defined.

End Values.

Global Instance res_fmap : FMap res := fun A B f m =>
  match m with
  | Ok a => Ok (f a)
  | Raise e => Raise e
  end.

Section LogReader.
Context {RT : Runtime}.

(** ** Builtins: [int] *)

Definition is_ascii_space (c : char) : bool :=
  (9 <=? c) && (c <=? 13) || (c =? 32).

Definition is_ascii_digit (c : char) : bool :=
  (48 <=? c) && (c <=? 57).

(** What [int] does to one character before it parses: ASCII stays, any
    other white space becomes a blank, any other decimal digit its ASCII
    digit, and anything else ([None]) makes the literal invalid. *)
Definition to_ascii_digit_or_space (c : char) : option char :=
  if c <? 128 then Some c
  else if uni_isspace c then Some 32
  else match uni_todecimal c with
       | Some d => Some (48 + d)
       | None => None
       end.

(** The digits of a base 10 literal, with single underscores between
    digits; [prev] is the character before, [n] the digits seen. *)
Fixpoint scan_digits (acc : Z) (prev : char) (n : nat) (s : str)
  : option (Z * nat * str) :=
  match s with
  | c :: s' =>
      if is_ascii_digit c
      then scan_digits (acc * 10 + Z.of_N (c - 48)) c (S n) s'
      else if c =? 95
           then if prev =? 95 then None else scan_digits acc c n s'
           else if prev =? 95 then None else Some (acc, n, s)
  | [] => if prev =? 95 then None else Some (acc, n, [])
  end.

(** [int(x)] on a string: white space around, one optional sign, decimal
    digits. (The interpreter's optional cap on the number of digits,
    [sys.set_int_max_str_digits], is left out.) *)
Definition py_int (x : str) : res Z :=
  let invalid := Raise (ValueError (InvalidLiteral x)) in
  match mapM to_ascii_digit_or_space x with
  | None => invalid
  | Some b =>
      let b1 := (span is_ascii_space b).2 in
      let '(sign, b2) :=
        match b1 with
        | 43 :: r => (1%Z, r)
        | 45 :: r => ((-1)%Z, r)
        | _ => (1%Z, b1)
        end in
      match b2 with
      | 95 :: _ => invalid
      | _ =>
          match scan_digits 0 0 0 b2 with
          | Some (v, S _, rest) =>
              if forallb is_ascii_space rest then Ok (sign * v)%Z else invalid
          | _ => invalid
          end
      end
  end.

(** ** [range_check], [bool_from_str] *)

Definition range_check (minv maxv : option Z) (val : str) : res Z :=
  match minv, maxv with
  | Some minv, Some maxv =>
      val ← py_int val;
      if (minv <=? val)%Z && (val <? maxv)%Z then Ok val
      else Raise (ValueError (NotBetween val minv maxv))
  | None, Some maxv =>
      val ← py_int val;
      if (val <? maxv)%Z then Ok val
      else Raise (ValueError (NotLessThan val maxv))
  | Some minv, None =>
      val ← py_int val;
      if (minv <=? val)%Z then Ok val
      else Raise (ValueError (NotGreaterEq val minv))
  | None, None => py_int val
  end.

Definition bool_from_str (v : str) : res bool :=
  if bool_decide (v ∈ [py "1"; py "y"; py "Y"; py "t"; py "T"]) then Ok true
  else if bool_decide (v ∈ [py "0"; py "n"; py "N"; py "f"; py "F"]) then Ok false
  else Raise (ValueError (NotBoolLike v)).

(** ** The regular expression of aggregate types *)

(** [\w] on a [str] pattern: a letter or digit of any script, or [_]. *)
Definition is_word (c : char) : bool :=
  if c <? 128
  then is_ascii_digit c || (65 <=? c) && (c <=? 90)
       || (97 <=? c) && (c <=? 122) || (c =? 95)
  else uni_isalnum c.

(** [AGGREGATE_TYPE_RE.match(type_)], with the two groups of a match.
    The pattern is [^(\w+)\[(\w+)\]$]. A bracket is no word character, so
    each [\w+] can only take the whole run of word characters in front of
    it; [$] holds at the end and before a final newline. *)
Definition AGGREGATE_TYPE_RE_match (type_ : str) : option (str * str) :=
  let '(g1, r1) := span is_word type_ in
  match g1, r1 with
  | _ :: _, 91 :: r2 =>
      let '(g2, r3) := span is_word r2 in
      match g2 with
      | _ :: _ =>
          if bool_decide (r3 = [93]) || bool_decide (r3 = [93; 10])
          then Some (g1, g2) else None
      | [] => None
      end
  | _, _ => None
  end.

(** ** The tables [AGGREGATE_TYPES] and [TYPES] *)

(** [AGGREGATE_TYPES[k]]: the constructors [set] and [tuple], applied to
    the elements in the order they are produced. *)
Definition AGGREGATE_TYPES (k : str) : res (list DecodedValue -> DecodedValue) :=
  if bool_decide (k = py "set") then Ok (fun l => VSet (remove_dups l))
  else if bool_decide (k = py "vector") then Ok VTuple
  else Raise (KeyError k).

(** [TYPES[k]]: a plain dictionary, a key it does not have is a
    [KeyError]. *)
Definition TYPES (k : str) : res (str -> res DecodedValue) :=
  if bool_decide (k = py "addr") then Ok (fun x => VAddr <$> ip_address x)
  else if bool_decide (k = py "bool") then Ok (fun x => VBool <$> bool_from_str x)
  else if bool_decide (k = py "count")
  then Ok (fun x => VInt <$> range_check (Some 0%Z) None x)
  else if bool_decide (k = py "enum") then Ok (fun x => Ok (VStr x))
  else if bool_decide (k = py "interval")
  then Ok (fun x => f ← py_float x; VTimedelta <$> timedelta_seconds f)
  else if bool_decide (k = py "port")
  then Ok (fun x => VInt <$> range_check (Some 0%Z) (Some (2 ^ 16)%Z) x)
  else if bool_decide (k = py "string") then Ok (fun x => Ok (VStr x))
  else if bool_decide (k = py "time")
  then Ok (fun x => f ← py_float x; VDatetime <$> datetime_fromtimestamp f)
  else Raise (KeyError k).

(** ** [codecs.decode(s, 'unicode_escape')] *)

(** The codec works on bytes: a [str] is first encoded as UTF-8. *)
Definition utf8_encode_char (c : char) : res (list N) :=
  if c <? 128 then Ok [c]
  else if c <? 2048 then Ok [192 + c / 64; 128 + c mod 64]
  else if c <? 65536 then
    if (55296 <=? c) && (c <=? 57343) then Raise UnicodeEncodeError
    else Ok [224 + c / 4096; 128 + (c / 64) mod 64; 128 + c mod 64]
  else Ok [240 + c / 262144; 128 + (c / 4096) mod 64;
           128 + (c / 64) mod 64; 128 + c mod 64].

Definition utf8_encode (s : str) : res (list N) :=
  bs ← mapM utf8_encode_char s;
  Ok (concat bs).

Definition is_octal_digit (c : N) : bool := (48 <=? c) && (c <=? 55).

Definition hex_value (c : N) : option N :=
  if is_ascii_digit c then Some (c - 48)
  else if (65 <=? c) && (c <=? 70) then Some (c - 55)
  else if (97 <=? c) && (c <=? 102) then Some (c - 87)
  else None.

(** The character after a backslash, for the one-character escapes:
    backslash, the two quotes, and the letters a b f n r t v. *)
Definition simple_escape (c : N) : option char :=
  if c =? 92 then Some 92
  else if c =? 39 then Some 39
  else if c =? 34 then Some 34
  else if c =? 97 then Some 7
  else if c =? 98 then Some 8
  else if c =? 102 then Some 12
  else if c =? 110 then Some 10
  else if c =? 114 then Some 13
  else if c =? 116 then Some 9
  else if c =? 118 then Some 11
  else None.

(** Where the decoder is between two bytes. *)
Inductive esc_state :=
  | EPlain
  | EBackslash
  | EOctal (acc : N) (more : nat)
  | EHex (acc : N) (more : nat)
  | ENameOpen
  | EName (name : list N).

(** The decoder, one byte at a time; [out] is the output so far,
    reversed. Every error is a [UnicodeDecodeError] (errors='strict'). *)
Fixpoint esc_go (st : esc_state) (out : str) (s : list N) : res str :=
  let plain (c : N) (out : str) (s' : list N) :=
    if c =? 92 then esc_go EBackslash out s' else esc_go EPlain (c :: out) s' in
  match s with
  | [] =>
      match st with
      | EPlain => Ok (reverse out)
      | EOctal acc _ => Ok (reverse (acc :: out))
      | _ => Raise UnicodeDecodeError
      end
  | c :: s' =>
      match st with
      | EPlain => plain c out s'
      | EBackslash =>
          if c =? 10 then esc_go EPlain out s'
          else match simple_escape c with
               | Some x => esc_go EPlain (x :: out) s'
               | None =>
                   if is_octal_digit c then esc_go (EOctal (c - 48) 2) out s'
                   else if c =? 120 then esc_go (EHex 0 2) out s'
                   else if c =? 117 then esc_go (EHex 0 4) out s'
                   else if c =? 85 then esc_go (EHex 0 8) out s'
                   else if c =? 78 then esc_go ENameOpen out s'
                   else esc_go EPlain (c :: 92 :: out) s'
               end
      | EOctal acc (S k) =>
          if is_octal_digit c then esc_go (EOctal (acc * 8 + (c - 48)) k) out s'
          else plain c (acc :: out) s'
      | EOctal acc O => plain c (acc :: out) s'
      | EHex acc more =>
          match hex_value c, more with
          | Some d, 1%nat =>
              if acc * 16 + d <=? 1114111
              then esc_go EPlain (acc * 16 + d :: out) s'
              else Raise UnicodeDecodeError
          | Some d, S k => esc_go (EHex (acc * 16 + d) k) out s'
          | _, _ => Raise UnicodeDecodeError
          end
      | ENameOpen =>
          if c =? 123 then esc_go (EName []) out s' else Raise UnicodeDecodeError
      | EName name =>
          if c =? 125 then
            match name with
            | [] => Raise UnicodeDecodeError
            | _ :: _ =>
                match ucd_lookup (reverse name) with
                | Some x => esc_go EPlain (x :: out) s'
                | None => Raise UnicodeDecodeError
                end
            end
          else esc_go (EName (c :: name)) out s'
      end
  end.

Definition unicode_escape_decode (s : str) : res str :=
  bytes ← utf8_encode s;
  esc_go EPlain [] bytes.

(** ** The reader *)

(** What a metadata key can hold: a token, a tuple of tokens, or the
    time of [open] and [close]. *)
Inductive mvalue :=
  | MStr (s : str)
  | MTuple (l : list str)
  | MDatetime (t : datetime).

Definition maybe_singleton (thing : list str) : mvalue :=
  match thing with
  | [x] => MStr x
  | _ => MTuple thing
  end.

(** The object: [_logfile] is the list of lines handed to [iterate]. *)
Record BroLogReader := {
  _decompose_aggregate : bool;
  _metadata : gmap str mvalue;
}.

Definition __init__ (decompose_aggregate : bool) : BroLogReader :=
  {| _decompose_aggregate := decompose_aggregate;
     _metadata := {[ py "separator" := MStr (py " ") ]} |}.

Definition __getattr__ (self : BroLogReader) (name : str) : res mvalue :=
  match _metadata self !! name with
  | Some v => Ok v
  | None => Raise (AttributeError name)
  end.

(** [value == m] for a string [value]. *)
Definition str_eq (value : str) (m : mvalue) : bool :=
  match m with
  | MStr s => bool_decide (value = s)
  | _ => false
  end.

(** [s.split(sep)] *)
Definition py_split (sep : mvalue) (s : str) : res (list str) :=
  match sep with
  | MStr [] => Raise (ValueError EmptySeparator)
  | MStr sep => Ok (split sep s)
  | _ => Raise TypeError
  end.

(** Iterating over a metadata value: a string gives its characters. *)
Definition py_iter (m : mvalue) : res (list str) :=
  match m with
  | MStr s => Ok (map (fun c => [c]) s)
  | MTuple l => Ok l
  | MDatetime _ => Raise TypeError
  end.

(** The body of [_cast_value], the recursive call being [self_cast]. *)
Definition cast_value_body (self_cast : str -> str -> res DecodedValue)
    (self : BroLogReader) (value type_ : str) : res DecodedValue :=
  unset ← __getattr__ self (py "unset_field");
  if str_eq value unset then Ok VNone
  else
    match AGGREGATE_TYPE_RE_match type_ with
    | Some (agg_type, subtype) =>
        if _decompose_aggregate self then
          empty ← __getattr__ self (py "empty_field");
          if str_eq value empty then
            ctor ← AGGREGATE_TYPES agg_type;
            Ok (ctor [])
          else
            ctor ← AGGREGATE_TYPES agg_type;
            sep ← __getattr__ self (py "set_separator");
            pieces ← py_split sep value;
            vs ← mapM (fun v => self_cast v subtype) pieces;
            Ok (ctor vs)
        else Ok (VStr value)
    | None =>
        caster ← TYPES type_;
        caster value
    end.

(** [_cast_value] with a bound on the depth of the recursion. *)
Fixpoint cast_value_depth (depth : nat) (self : BroLogReader)
    (value type_ : str) : res DecodedValue :=
  match depth with
  | O => Raise RecursionError
  | S d => cast_value_body (cast_value_depth d self) self value type_
  end.

(** The second group of the pattern never matches the pattern again, so
    two levels are all there is: see [_cast_value_unfold], which gives
    back the definition of the source, and [cast_value_depth_enough]. *)
Definition _cast_value (self : BroLogReader) (value type_ : str)
  : res DecodedValue :=
  cast_value_depth 2 self value type_.

Definition _cast_values (self : BroLogReader) (values : list str)
    (types : mvalue) : res (list DecodedValue) :=
  types ← py_iter types;
  mapM (fun vt => _cast_value self vt.1 vt.2) (zip values types).

(** ** Records *)

(** A Python dict with string keys: assigning to a key that is there
    replaces its value in place, a new key goes to the end. *)
Definition record := list (str * DecodedValue).

Fixpoint dict_set (d : record) (k : str) (v : DecodedValue) : record :=
  match d with
  | [] => [(k, v)]
  | (k', v') :: d' =>
      if bool_decide (k' = k) then (k, v) :: d' else (k', v') :: dict_set d' k v
  end.

(** [dict(pairs)] *)
Definition dict (pairs : list (str * DecodedValue)) : record :=
  fold_left (fun d kv => dict_set d kv.1 kv.2) pairs [].

(** [d.get(k)] *)
Fixpoint dict_get (d : record) (k : str) : option DecodedValue :=
  match d with
  | [] => None
  | (k', v) :: d' => if bool_decide (k' = k) then Some v else dict_get d' k
  end.

(** ** The loop of [__iter__] *)

(** A metadata line: [key, *rest = line.lstrip('#').rstrip('\n').split(
    self.separator)] and [rest = maybe_singleton(tuple(rest))]. *)
Definition header_tokens (self : BroLogReader) (line : str)
  : res (str * mvalue) :=
  sep ← __getattr__ self (py "separator");
  tokens ← py_split sep (rstrip 10 (lstrip 35 line));
  match tokens with
  | key :: rest => Ok (key, maybe_singleton rest)
  | [] => Raise (ValueError NotEnoughValues)
  end.

(** The treatment of [rest] that depends on the key. *)
Definition header_value (key : str) (rest : mvalue) : res mvalue :=
  if bool_decide (key ∈ [py "separator"; py "set_separator"]) then
    match rest with
    | MStr s =>
        rest ← unicode_escape_decode s;
        if bool_decide (length rest ≠ 1%nat)
        then Raise (BroLogFormatError rest)
        else Ok (MStr rest)
    | _ => Raise TypeError
    end
  else if bool_decide (key ∈ [py "open"; py "close"]) then
    match rest with
    | MStr s =>
        parts ← mapM py_int (split (py "-") s);
        MDatetime <$> datetime_new parts
    | _ => Raise (AttributeError (py "split"))
    end
  else Ok rest.

Definition set_metadata (self : BroLogReader) (key : str) (v : mvalue)
  : BroLogReader :=
  {| _decompose_aggregate := _decompose_aggregate self;
     _metadata := <[key := v]> (_metadata self) |}.

(** A data line: the cells, cast and zipped with the field names. *)
Definition data_line (self : BroLogReader) (line : str) : res record :=
  sep ← __getattr__ self (py "separator");
  cells ← py_split sep (rstrip 10 line);
  types ← match _metadata self !! py "types" with
          | Some t => Ok t
          | None => Raise (KeyError (py "types"))
          end;
  values ← _cast_values self cells types;
  fields ← __getattr__ self (py "fields");
  fields ← py_iter fields;
  Ok (dict (zip fields values)).

(** One turn of the loop: the reader after the line, and the record the
    line yields if it is a data line. *)
Definition process_line (self : BroLogReader) (line : str)
  : res (BroLogReader * option record) :=
  if startswith 35 line then
    kr ← header_tokens self line;
    rest ← header_value kr.1 kr.2;
    Ok (set_metadata self kr.1 rest, None)
  else
    rec ← data_line self line;
    Ok (self, Some rec).

(** What consuming the generator to its end gives: the records yielded
    in order, the exception that stopped it if one did, and the reader
    as it is then. *)
Record outcome := {
  yielded : list record;
  raised : option exn;
  reader : BroLogReader;
}.

Fixpoint iterate (self : BroLogReader) (logfile : list str) : outcome :=
  match logfile with
  | [] => {| yielded := []; raised := None; reader := self |}
  | line :: logfile' =>
      match process_line self line with
      | Raise e => {| yielded := []; raised := Some e; reader := self |}
      | Ok (self', None) => iterate self' logfile'
      | Ok (self', Some rec) =>
          let o := iterate self' logfile' in
          {| yielded := rec :: yielded o; raised := raised o; reader := reader o |}
      end
  end.

(** The keys of [TYPES]. *)
Definition TYPES_keys : list str :=
  [py "addr"; py "bool"; py "count"; py "enum"; py "interval"; py "port";
   py "string"; py "time"].


(** The readers a run can be in: the fresh one, and the one after each
    line that raised nothing. *)
Inductive reachable : BroLogReader -> Prop :=
  | reachable_init (decompose_aggregate : bool) :
      reachable (__init__ decompose_aggregate)
  | reachable_line (self self' : BroLogReader) (line : str)
        (y : option record) :
      reachable self -> process_line self line = Ok (self', y) ->
      reachable self'.

(** ** [str.join], and the generator read one record at a time *)

(** [sep.join(l)] *)
Fixpoint join (sep : str) (l : list str) : str :=
  match l with
  | [] => []
  | [x] => x
  | x :: l' => x ++ sep ++ join sep l'
  end.

(** What [next(records)] gives on the generator of a reader: a record
    with the reader as it is then and the lines not yet read, the end of
    the log ([StopIteration]), or the exception of a line. *)
Inductive next_result :=
  | NextRecord (rec : record) (self : BroLogReader) (logfile : list str)
  | NextStop (self : BroLogReader)
  | NextRaise (e : exn) (self : BroLogReader).

Fixpoint next_record (self : BroLogReader) (logfile : list str) : next_result :=
  match logfile with
  | [] => NextStop self
  | line :: logfile' =>
      match process_line self line with
      | Raise e => NextRaise e self
      | Ok (self', None) => next_record self' logfile'
      | Ok (self', Some rec) => NextRecord rec self' logfile'
      end
  end.

(** ** The loader ([bro_tools/db.py]), without the database *)

(** [f.replace('.', '_')] *)
Definition replace_dot (f : str) : str :=
  map (fun c => if c =? 46 then 95 else c) f.

(** [[f.replace('.', '_') for f in reader.fields]]: the columns of the
    table and the names of the placeholders. *)
Definition table_columns (self : BroLogReader) : res (list str) :=
  fields ← __getattr__ self (py "fields");
  fields ← py_iter fields;
  Ok (map replace_dot fields).

(** [{k.replace('.', '_'): v for k, v in rec.items()}]: what is bound to
    the placeholders. *)
Definition insert_parameters (rec : record) : record :=
  dict (map (fun kv => (replace_dot kv.1, kv.2)) rec).

(** The lines of a log that are data. *)
Definition data_lines (logfile : list str) : list str :=
  filter (fun line => startswith 35 line = false) logfile.

End LogReader.

(** ** A runtime to run the examples *)

(** A runtime without the library modules: every call into [ipaddress],
    [float] and [datetime] raises, no name is in the character database,
    and no code point beyond ASCII is a letter, a digit or white space.
    The examples and the concrete instances below run on it; none of them
    reaches what it leaves out, and every theorem is stated for all
    runtimes. *)
Definition bare_runtime : Runtime := {|
  addr := Empty_set;
  timedelta := Empty_set;
  datetime := Empty_set;
  float := Empty_set;
  ip_address := fun _ => Raise (ValueError LibraryValueError);
  py_float := fun _ => Raise (ValueError LibraryValueError);
  timedelta_seconds := fun _ => Raise OverflowError;
  datetime_fromtimestamp := fun _ => Raise OSError;
  datetime_new := fun _ => Raise TypeError;
  uni_isalnum := fun _ => false;
  uni_isspace := fun _ => false;
  uni_todecimal := fun _ => None;
  ucd_lookup := fun _ => None;
|}.

(** The head of a log as Bro writes it, and the reader after it. *)
Definition bro_header : list str :=
  [ py "#separator \x09" ++ [10];
    py "#set_separator" ++ [9] ++ py "," ++ [10];
    py "#empty_field" ++ [9] ++ py "(empty)" ++ [10];
    py "#unset_field" ++ [9] ++ py "-" ++ [10];
    py "#fields" ++ [9] ++ py "id.orig_p" ++ [9] ++ py "proto" ++ [9]
      ++ py "tags" ++ [10];
    py "#types" ++ [9] ++ py "port" ++ [9] ++ py "enum" ++ [9]
      ++ py "vector[count]" ++ [10] ].

Definition after_header {RT : Runtime} (decompose_aggregate : bool)
  : BroLogReader :=
  reader (iterate (__init__ decompose_aggregate) bro_header).

(** The same reader on the runtime of the examples. *)
Definition sample_reader (decompose_aggregate : bool)
  : @BroLogReader bare_runtime :=
  @after_header bare_runtime decompose_aggregate.

(** A log whose columns share one name. *)
Definition twin_fields_reader : @BroLogReader bare_runtime :=
  reader (iterate (__init__ true)
            [ py "#unset_field -" ++ [10];
              py "#fields a a" ++ [10];
              py "#types count count" ++ [10] ]).

(** The reader after the head of a log of one column. *)
Definition one_column_reader : @BroLogReader bare_runtime :=
  reader (iterate (__init__ true)
            [ py "#unset_field -" ++ [10];
              py "#fields n" ++ [10];
              py "#types count" ++ [10] ]).

(** The reader after a head that declares one field, [ab], and one type. *)
Definition one_name_reader : @BroLogReader bare_runtime :=
  reader (iterate (__init__ true)
            [ py "#unset_field -" ++ [10];
              py "#fields ab" ++ [10];
              py "#types count" ++ [10] ]).

(** A log that declares no column at all and no unset marker, and one
    line of data. *)
Definition empty_schema_log : list str :=
  [ py "#fields" ++ [10]; py "#types" ++ [10]; py "x" ++ [10] ].

(** A log that changes the separator after its first record. *)
Definition two_separator_log : list str :=
  bro_header ++
  [ py "80" ++ [9] ++ py "tcp;udp" ++ [9] ++ py "1,2" ++ [10];
    py "#separator" ++ [9] ++ py ";" ++ [10];
    py "443;tcp;3" ++ [10] ].

(** * Properties *)

Example header_sets_metadata {RT : Runtime} :
  raised (iterate (__init__ true) bro_header) = None /\
  __getattr__ (after_header true) (py "separator") = Ok (MStr [9]) /\
  __getattr__ (after_header true) (py "unset_field") = Ok (MStr (py "-")) /\
  __getattr__ (after_header true) (py "types")
    = Ok (MTuple [py "port"; py "enum"; py "vector[count]"]).
Proof. vm_compute. repeat split. Qed.

Example data_line_decoded {RT : Runtime} :
  yielded (iterate (after_header true)
             [py "80" ++ [9] ++ py "tcp" ++ [9] ++ py "1,2,3" ++ [10]])
  = [[(py "id.orig_p", VInt 80); (py "proto", VStr (py "tcp"));
      (py "tags", VTuple [VInt 1; VInt 2; VInt 3])]].
Proof. vm_compute. reflexivity. Qed.

(** ** Lists of results *)

Section Helpers.
Context {RT : Runtime}.

(** ** The builtins on small inputs *)

Example split_tabs :
  split (py ",") (py "1,2,,3") = [py "1"; py "2"; py ""; py "3"].
Proof. reflexivity. Qed.

Example split_two_chars :
  split (py "ab") (py "xabyabab") = [py "x"; py "y"; py ""; py ""].
Proof. reflexivity. Qed.

Example int_literals :
  py_int (py " +1_000 ") = Ok 1000%Z /\ py_int (py "-007") = Ok (-7)%Z /\
  py_int (py "_1") = Raise (ValueError (InvalidLiteral (py "_1"))) /\
  py_int (py "1__0") = Raise (ValueError (InvalidLiteral (py "1__0"))) /\
  py_int (py "0x10") = Raise (ValueError (InvalidLiteral (py "0x10"))) /\
  py_int (py "") = Raise (ValueError (InvalidLiteral (py ""))).
Proof. repeat split. Qed.

Example aggregate_pattern :
  AGGREGATE_TYPE_RE_match (py "set[addr]") = Some (py "set", py "addr") /\
  AGGREGATE_TYPE_RE_match (py "vector[count]" ++ [10])
    = Some (py "vector", py "count") /\
  AGGREGATE_TYPE_RE_match (py "table[count]") = Some (py "table", py "count") /\
  AGGREGATE_TYPE_RE_match (py "set[set[addr]]") = None /\
  AGGREGATE_TYPE_RE_match (py "set[]") = None /\
  AGGREGATE_TYPE_RE_match (py "count") = None.
Proof. repeat split. Qed.

Example unescape_tab : unicode_escape_decode (py "\x09") = Ok [9].
Proof. reflexivity. Qed.

Example unescape_octal : unicode_escape_decode (py "\1011\n") = Ok [65; 49; 10].
Proof. reflexivity. Qed.

Example unescape_truncated : unicode_escape_decode (py "\x9") = Raise UnicodeDecodeError.
Proof. reflexivity. Qed.

Example unescape_latin1 : unicode_escape_decode [233] = Ok [195; 169].
Proof. reflexivity. Qed.


Lemma bind_res_ext {A B} (m : res A) (f g : A -> res B) :
  (forall a, m = Ok a -> f a = g a) -> m ≫= f = m ≫= g.
Proof. intros H. destruct m; simpl; [apply H|]; reflexivity. Qed.

Lemma bind_Ok {A B} (a : A) (f : A -> res B) : Ok a ≫= f = f a.
Proof. reflexivity. Qed.

Lemma mapM_res_ext {A B} (f g : A -> res B) (l : list A) :
  (forall x, x ∈ l -> f x = g x) -> mapM f l = mapM g l.
Proof.
  induction l as [|x l IH]; intros H; [reflexivity|].
  simpl. rewrite (H x) by left.
  destruct (g x); [|reflexivity]. simpl.
  rewrite IH; [reflexivity|]. intros y Hy. apply H. right. exact Hy.
Qed.

Lemma mapM_res_Ok {A B} (f : A -> res B) (l : list A) (k : list B) :
  mapM f l = Ok k <-> Forall2 (fun x y => f x = Ok y) l k.
Proof.
  revert k. induction l as [|x l IH]; intros k; simpl.
  - split.
    + intros [= <-]. constructor.
    + intros H. inversion H. reflexivity.
  - split.
    + destruct (f x) as [y|] eqn:Ex; simpl; [|discriminate].
      destruct (mapM f l) as [k'|] eqn:Ek; simpl; [|discriminate].
      intros [= <-]. constructor; [exact Ex | apply IH; reflexivity].
    + intros H. inversion H as [|? y ? k' Hy Hk]; subst.
      rewrite Hy. simpl. apply IH in Hk. rewrite Hk. reflexivity.
Qed.

Lemma mapM_res_length {A B} (f : A -> res B) (l : list A) (k : list B) :
  mapM f l = Ok k -> length k = length l.
Proof.
  intros H. apply mapM_res_Ok in H. symmetry. eapply Forall2_length, H.
Qed.

(** ** [span] and the pattern *)

Lemma span_spec (p : char -> bool) (s a b : str) :
  span p s = (a, b) ->
  s = a ++ b /\ forallb p a = true /\
  match b with c :: _ => p c = false | [] => True end.
Proof.
  revert a b. induction s as [|c s IH]; intros a b; simpl.
  - intros [= <- <-]. auto.
  - destruct (p c) eqn:Ec.
    + destruct (span p s) as [a' b'] eqn:Es. intros [= <- <-].
      destruct (IH _ _ eq_refl) as (-> & Ha & Hb).
      simpl. rewrite Ec, Ha. auto.
    + intros [= <- <-]. simpl. auto.
Qed.

Lemma span_all (p : char -> bool) (s : str) :
  forallb p s = true -> span p s = (s, []).
Proof.
  induction s as [|c s IH]; simpl; [reflexivity|].
  intros H. apply andb_true_iff in H as [Hc Hs].
  rewrite Hc, (IH Hs). reflexivity.
Qed.

(** What a match says about the type name. *)
Lemma AGGREGATE_TYPE_RE_match_Some (type_ agg_type subtype : str) :
  AGGREGATE_TYPE_RE_match type_ = Some (agg_type, subtype) ->
  agg_type <> [] /\ subtype <> [] /\
  forallb is_word agg_type = true /\ forallb is_word subtype = true /\
  (type_ = agg_type ++ [91] ++ subtype ++ [93] \/
   type_ = agg_type ++ [91] ++ subtype ++ [93; 10]).
Proof.
  unfold AGGREGATE_TYPE_RE_match.
  destruct (span is_word type_) as [g1 r1] eqn:E1.
  destruct g1 as [|c1 g1]; [discriminate|].
  destruct r1 as [|x r2]; [discriminate|].
  destruct (decide (x = 91)) as [->|Hx].
  2:{ destruct x as [|x]; [discriminate|].
      do 7 (destruct x as [x|x|]; try discriminate). congruence. }
  destruct (span is_word r2) as [g2 r3] eqn:E2.
  destruct g2 as [|c2 g2]; [discriminate|].
  apply span_spec in E1 as (-> & H1 & _).
  apply span_spec in E2 as (-> & H2 & _).
  destruct (bool_decide (r3 = [93]) || bool_decide (r3 = [93; 10])) eqn:E3;
    [|discriminate].
  intros [= <- <-]. repeat split; try discriminate; try assumption.
  apply orb_true_iff in E3 as [E3|E3]; apply bool_decide_eq_true in E3;
    subst r3; [left | right]; reflexivity.
Qed.

(** The second group is a run of word characters: it is no aggregate
    type itself. *)
Lemma subtype_is_scalar (type_ agg_type subtype : str) :
  AGGREGATE_TYPE_RE_match type_ = Some (agg_type, subtype) ->
  AGGREGATE_TYPE_RE_match subtype = None.
Proof.
  intros H. apply AGGREGATE_TYPE_RE_match_Some in H as (_ & _ & _ & H & _).
  unfold AGGREGATE_TYPE_RE_match. rewrite (span_all _ _ H).
  destruct subtype; reflexivity.
Qed.

(** ** The recursion of [_cast_value] *)

(** On a type that is no aggregate the body does not call itself. *)
Lemma cast_value_body_scalar (f g : str -> str -> res DecodedValue)
    (self : BroLogReader) (value type_ : str) :
  AGGREGATE_TYPE_RE_match type_ = None ->
  cast_value_body f self value type_ = cast_value_body g self value type_.
Proof. intros H. unfold cast_value_body. rewrite H. reflexivity. Qed.

(** Two levels of the body do not depend on what is called below. *)
Lemma cast_value_body_twice (f g : str -> str -> res DecodedValue)
    (self : BroLogReader) (value type_ : str) :
  cast_value_body (cast_value_body f self) self value type_
  = cast_value_body (cast_value_body g self) self value type_.
Proof.
  unfold cast_value_body at 1 3.
  apply bind_res_ext; intros unset _.
  destruct (str_eq value unset); [reflexivity|].
  destruct (AGGREGATE_TYPE_RE_match type_) as [[agg_type subtype]|] eqn:Em;
    [|reflexivity].
  destruct (_decompose_aggregate self); [|reflexivity].
  apply bind_res_ext; intros empty _.
  destruct (str_eq value empty); [reflexivity|].
  apply bind_res_ext; intros ctor _.
  apply bind_res_ext; intros sep _.
  apply bind_res_ext; intros pieces _.
  erewrite mapM_res_ext; [reflexivity|].
  intros v _. apply cast_value_body_scalar.
  eapply subtype_is_scalar, Em.
Qed.

(** [_cast_value] satisfies the recursive definition of the source. *)
Lemma _cast_value_unfold (self : BroLogReader) (value type_ : str) :
  _cast_value self value type_
  = cast_value_body (_cast_value self) self value type_.
Proof.
  unfold _cast_value. simpl. apply cast_value_body_twice.
Qed.

(** More depth changes nothing. *)
Lemma cast_value_depth_enough (n : nat) (self : BroLogReader)
    (value type_ : str) :
  (2 <= n)%nat -> cast_value_depth n self value type_ = _cast_value self value type_.
Proof.
  intros H. destruct n as [|[|n]]; [lia | lia |].
  unfold _cast_value. simpl. apply cast_value_body_twice.
Qed.

(** On a scalar type: the unset test, then the caster of [TYPES]. *)
Lemma _cast_value_scalar (self : BroLogReader) (value type_ : str) :
  AGGREGATE_TYPE_RE_match type_ = None ->
  _cast_value self value type_
  = (unset ← __getattr__ self (py "unset_field");
     if str_eq value unset then Ok VNone
     else caster ← TYPES type_; caster value).
Proof.
  intros H. rewrite _cast_value_unfold. unfold cast_value_body.
  rewrite H. reflexivity.
Qed.

Lemma str_eq_true (value : str) (m : mvalue) :
  str_eq value m = true <-> m = MStr value.
Proof.
  destruct m; simpl; rewrite ?bool_decide_eq_true; split; congruence.
Qed.

Lemma split_go_nonempty (sep : str) (skip : nat) (cur s : str) :
  split_go sep skip cur s <> [].
Proof.
  revert skip cur. induction s as [|c s IH]; intros skip cur; simpl;
    [discriminate|].
  destruct skip; [|apply IH].
  destruct (has_prefix sep (c :: s)); [discriminate | apply IH].
Qed.

(** [split] gives at least one piece. *)
Lemma split_nonempty (sep s : str) : split sep s <> [].
Proof. apply split_go_nonempty. Qed.

Lemma TYPES_count :
  TYPES (py "count") = Ok (fun x => VInt <$> range_check (Some 0%Z) None x).
Proof. reflexivity. Qed.

Lemma TYPES_port :
  TYPES (py "port")
  = Ok (fun x => VInt <$> range_check (Some 0%Z) (Some (2 ^ 16)%Z) x).
Proof. reflexivity. Qed.

Lemma TYPES_bool : TYPES (py "bool") = Ok (fun x => VBool <$> bool_from_str x).
Proof. reflexivity. Qed.

Lemma TYPES_enum : TYPES (py "enum") = Ok (fun x => Ok (VStr x)).
Proof. reflexivity. Qed.

Lemma TYPES_string : TYPES (py "string") = Ok (fun x => Ok (VStr x)).
Proof. reflexivity. Qed.

Lemma TYPES_missing (k : str) : k ∉ TYPES_keys -> TYPES k = Raise (KeyError k).
Proof.
  intros H. unfold TYPES_keys in H.
  repeat (apply not_elem_of_cons in H as [? H]).
  unfold TYPES. repeat (rewrite bool_decide_eq_false_2 by assumption).
  reflexivity.
Qed.

(** A cell that is not the unset marker, of a scalar type. *)
Lemma _cast_value_set_scalar (self : BroLogReader) (value type_ : str)
    (unset : mvalue) :
  __getattr__ self (py "unset_field") = Ok unset ->
  unset <> MStr value ->
  AGGREGATE_TYPE_RE_match type_ = None ->
  _cast_value self value type_ = (caster ← TYPES type_; caster value).
Proof.
  intros Hu Hne Hm. rewrite (_cast_value_scalar _ _ _ Hm), Hu. simpl.
  destruct (str_eq value unset) eqn:E; [|reflexivity].
  apply str_eq_true in E. contradiction.
Qed.

Lemma str_eq_false (value : str) (m : mvalue) :
  m <> MStr value -> str_eq value m = false.
Proof.
  intros H. destruct (str_eq value m) eqn:E; [|reflexivity].
  apply str_eq_true in E. contradiction.
Qed.

(** A cell of an aggregate type in a reader that decomposes, when the
    cell is neither marker and [set_separator] is a string. *)
Lemma _cast_value_aggregate (self : BroLogReader) (value type_ : str)
    (agg_type subtype : str) (unset empty : mvalue) (c : char) (sep : str) :
  _decompose_aggregate self = true ->
  __getattr__ self (py "unset_field") = Ok unset -> unset <> MStr value ->
  __getattr__ self (py "empty_field") = Ok empty -> empty <> MStr value ->
  __getattr__ self (py "set_separator") = Ok (MStr (c :: sep)) ->
  AGGREGATE_TYPE_RE_match type_ = Some (agg_type, subtype) ->
  _cast_value self value type_
  = (ctor ← AGGREGATE_TYPES agg_type;
     vs ← mapM (fun v => _cast_value self v subtype) (split (c :: sep) value);
     Ok (ctor vs)).
Proof.
  intros Hd Hu Hnu He Hne Hs Hm.
  rewrite _cast_value_unfold. unfold cast_value_body.
  rewrite Hu, bind_Ok, (str_eq_false _ _ Hnu), Hm, Hd, He, bind_Ok.
  rewrite (str_eq_false _ _ Hne), Hs.
  destruct (AGGREGATE_TYPES agg_type); reflexivity.
Qed.

(** The same when the cell is the empty marker. *)
Lemma _cast_value_empty (self : BroLogReader) (value type_ : str)
    (agg_type subtype : str) (unset : mvalue) :
  _decompose_aggregate self = true ->
  __getattr__ self (py "unset_field") = Ok unset -> unset <> MStr value ->
  __getattr__ self (py "empty_field") = Ok (MStr value) ->
  AGGREGATE_TYPE_RE_match type_ = Some (agg_type, subtype) ->
  _cast_value self value type_
  = (ctor ← AGGREGATE_TYPES agg_type; Ok (ctor [])).
Proof.
  intros Hd Hu Hnu He Hm.
  rewrite _cast_value_unfold. unfold cast_value_body.
  rewrite Hu, bind_Ok, (str_eq_false _ _ Hnu), Hm, Hd, He, bind_Ok.
  rewrite (proj2 (str_eq_true _ _)) by reflexivity. reflexivity.
Qed.

(** The test against [unset_field] comes first. *)
Lemma _cast_value_unset (self : BroLogReader)
    (value type_ : str) :
  __getattr__ self (py "unset_field") = Ok (MStr value) ->
  _cast_value self value type_ = Ok VNone.
Proof.
  intros H. rewrite _cast_value_unfold. unfold cast_value_body.
  rewrite H. simpl. rewrite bool_decide_eq_true_2 by reflexivity.
  reflexivity.
Qed.

(** ** Dictionaries *)


Lemma dict_set_fresh (d : record) (k : str) (v : DecodedValue) :
  k ∉ d.*1 -> dict_set d k v = d ++ [(k, v)].
Proof.
  induction d as [|[k0 v0] d IH]; simpl; intros H; [reflexivity|].
  apply not_elem_of_cons in H as [Hne Hd].
  rewrite bool_decide_eq_false_2 by congruence.
  rewrite (IH Hd). reflexivity.
Qed.

Lemma dict_set_length (d : record) (k : str) (v : DecodedValue) :
  (length (dict_set d k v) <= S (length d))%nat.
Proof.
  induction d as [|[k0 v0] d IH]; simpl; [lia|].
  destruct (bool_decide (k0 = k)); simpl; lia.
Qed.



Lemma dict_fold_length (pairs : list (str * DecodedValue)) (d : record) :
  (length (fold_left (fun d kv => dict_set d kv.1 kv.2) pairs d)
   <= length d + length pairs)%nat.
Proof.
  revert d. induction pairs as [|[k0 v0] pairs IH]; intros d; simpl; [lia|].
  etrans; [apply IH|]. pose proof (dict_set_length d k0 v0). lia.
Qed.

Lemma dict_fold_NoDup (pairs : list (str * DecodedValue)) (d : record) :
  NoDup (d.*1 ++ pairs.*1) ->
  fold_left (fun d kv => dict_set d kv.1 kv.2) pairs d = d ++ pairs.
Proof.
  revert d. induction pairs as [|[k0 v0] pairs IH]; intros d; simpl.
  - intros _. rewrite app_nil_r. reflexivity.
  - intros H. rewrite dict_set_fresh.
    + rewrite IH.
      * rewrite <- app_assoc. reflexivity.
      * rewrite fmap_app. simpl. rewrite <- app_assoc. exact H.
    + apply NoDup_app in H as (_ & H & _). intros Hin.
      apply (H k0 Hin). left.
Qed.


Lemma dict_length (pairs : list (str * DecodedValue)) :
  (length (dict pairs) <= length pairs)%nat.
Proof. unfold dict. pose proof (dict_fold_length pairs []). simpl in *. lia. Qed.

(** With distinct keys nothing collapses. *)
Lemma dict_NoDup (pairs : list (str * DecodedValue)) :
  NoDup pairs.*1 -> dict pairs = pairs.
Proof. intros H. unfold dict. rewrite dict_fold_NoDup; [reflexivity | exact H]. Qed.

Lemma fst_zip_take {A B} (l : list A) (k : list B) :
  (zip l k).*1 = take (length k) l.
Proof.
  revert k. induction l as [|x l IH]; intros [|y k]; simpl;
    try reflexivity.
  rewrite IH. reflexivity.
Qed.

(** ** Data lines *)

(** A data line once the separator and [types] are there. *)
Lemma data_line_eq (self : BroLogReader) (line : str) (c : char) (sep : str)
    (types : mvalue) :
  __getattr__ self (py "separator") = Ok (MStr (c :: sep)) ->
  _metadata self !! py "types" = Some types ->
  data_line self line
  = (values ← _cast_values self (split (c :: sep) (rstrip 10 line)) types;
     fields ← __getattr__ self (py "fields");
     fields ← py_iter fields;
     Ok (dict (zip fields values))).
Proof.
  intros Hs Ht. unfold data_line. rewrite Hs, bind_Ok. cbn [py_split].
  rewrite bind_Ok, Ht, bind_Ok. reflexivity.
Qed.

Lemma data_line_no_types (self : BroLogReader) (line : str) (c : char)
    (sep : str) :
  __getattr__ self (py "separator") = Ok (MStr (c :: sep)) ->
  _metadata self !! py "types" = None ->
  data_line self line = Raise (KeyError (py "types")).
Proof.
  intros Hs Ht. unfold data_line. rewrite Hs, bind_Ok. cbn [py_split].
  rewrite bind_Ok, Ht. reflexivity.
Qed.

Lemma process_data_line (self : BroLogReader) (line : str) :
  startswith 35 line = false ->
  process_line self line = (rec ← data_line self line; Ok (self, Some rec)).
Proof. intros H. unfold process_line. rewrite H. reflexivity. Qed.

(** ** The separator of a reader in a run *)

Lemma header_value_separator (rest v : mvalue) :
  header_value (py "separator") rest = Ok v -> exists c, v = MStr [c].
Proof.
  unfold header_value. rewrite bool_decide_eq_true_2 by (left).
  destruct rest as [s| |]; try discriminate.
  destruct (unicode_escape_decode s) as [u|]; [|discriminate].
  rewrite bind_Ok. case_bool_decide as Hlen; [discriminate|].
  intros [= <-]. destruct u as [|c [|]]; simpl in Hlen; try lia.
  eauto.
Qed.

(** What a line that raises nothing does to the reader. *)
Lemma process_line_Ok (self self' : BroLogReader) (line : str)
    (y : option record) :
  process_line self line = Ok (self', y) ->
  if startswith 35 line
  then exists key rest v,
         header_tokens self line = Ok (key, rest) /\
         header_value key rest = Ok v /\
         y = None /\ self' = set_metadata self key v
  else self' = self /\ exists rec, data_line self line = Ok rec /\ y = Some rec.
Proof.
  unfold process_line. destruct (startswith 35 line).
  - destruct (header_tokens self line) as [[key rest]|]; [|discriminate].
    rewrite bind_Ok. cbn [fst snd].
    destruct (header_value key rest) as [v|] eqn:Hv; [|discriminate].
    rewrite bind_Ok. intros [= <- <-]. exists key, rest, v. auto.
  - destruct (data_line self line) as [rec|]; [|discriminate].
    rewrite bind_Ok. intros [= <- <-]. eauto.
Qed.

Lemma getattr_set_metadata (self : BroLogReader) (key name : str) (v : mvalue) :
  __getattr__ (set_metadata self key v) name
  = if bool_decide (key = name) then Ok v else __getattr__ self name.
Proof.
  unfold __getattr__, set_metadata. cbn [_metadata].
  case_bool_decide as E.
  - subst. rewrite lookup_insert_eq. reflexivity.
  - rewrite lookup_insert_ne by exact E. reflexivity.
Qed.

(** In a run the separator is always one character. *)
Lemma reachable_separator (self : BroLogReader) :
  reachable self ->
  exists c, __getattr__ self (py "separator") = Ok (MStr [c]).
Proof.
  induction 1 as [d | self self' line y _ [c IH] Hp].
  - exists 32. reflexivity.
  - apply process_line_Ok in Hp. destruct (startswith 35 line).
    + destruct Hp as (key & rest & v & _ & Hv & _ & ->).
      rewrite getattr_set_metadata. case_bool_decide as E; [|eauto].
      subst key. apply header_value_separator in Hv as [c' ->]. eauto.
    + destruct Hp as [-> _]. eauto.
Qed.

(** The generator over a log in two parts. *)
Lemma iterate_app (self : BroLogReader) (pre post : list str) :
  iterate self (pre ++ post)
  = match raised (iterate self pre) with
    | Some _ => iterate self pre
    | None =>
        {| yielded := yielded (iterate self pre)
                      ++ yielded (iterate (reader (iterate self pre)) post);
           raised := raised (iterate (reader (iterate self pre)) post);
           reader := reader (iterate (reader (iterate self pre)) post) |}
    end.
Proof.
  revert self. induction pre as [|line pre IH]; intros self.
  - simpl. destruct (iterate self post); reflexivity.
  - cbn [app iterate].
    destruct (process_line self line) as [[self' [rec|]]|]; cbn.
    + rewrite IH. destruct (raised (iterate self' pre)) eqn:E; cbn;
        rewrite ?E; reflexivity.
    + apply IH.
    + reflexivity.
Qed.

(** The reader at the end of a run is one of the run. *)
Lemma reachable_iterate (self : BroLogReader) (logfile : list str) :
  reachable self -> reachable (reader (iterate self logfile)).
Proof.
  revert self. induction logfile as [|line logfile IH]; intros self Hr.
  - exact Hr.
  - cbn [iterate].
    destruct (process_line self line) as [[self' [rec|]]|] eqn:Hp; cbn.
    + apply IH. eapply reachable_line; eauto.
    + apply IH. eapply reachable_line; eauto.
    + exact Hr.
Qed.

(** A cell cannot be cast while [unset_field] is missing. *)
Lemma _cast_value_no_unset (self : BroLogReader) (value type_ : str) :
  _metadata self !! py "unset_field" = None ->
  _cast_value self value type_ = Raise (AttributeError (py "unset_field")).
Proof.
  intros H. rewrite _cast_value_unfold. unfold cast_value_body, __getattr__.
  rewrite H. reflexivity.
Qed.

(** ** What a line that raises nothing has done *)

Lemma bind_res_Ok_inv {A B} (m : res A) (f : A -> res B) (b : B) :
  m ≫= f = Ok b -> exists a, m = Ok a /\ f a = Ok b.
Proof. destruct m as [a|]; [eauto | discriminate]. Qed.

Lemma py_split_Ok (m : mvalue) (s : str) (l : list str) :
  py_split m s = Ok l -> exists c sep, m = MStr (c :: sep) /\ l = split (c :: sep) s.
Proof.
  destruct m as [[|c sep]| |]; simpl; try discriminate.
  intros [= <-]. eauto.
Qed.

Lemma header_tokens_Ok (self : BroLogReader) (line key : str) (rest : mvalue) :
  header_tokens self line = Ok (key, rest) ->
  exists c sep tokens,
    __getattr__ self (py "separator") = Ok (MStr (c :: sep)) /\
    split (c :: sep) (rstrip 10 (lstrip 35 line)) = key :: tokens /\
    rest = maybe_singleton tokens.
Proof.
  unfold header_tokens. intros H.
  apply bind_res_Ok_inv in H as (m & Hm & H).
  apply bind_res_Ok_inv in H as (l & Hl & H).
  apply py_split_Ok in Hl as (c & sep & -> & ->).
  destruct (split (c :: sep) (rstrip 10 (lstrip 35 line))) as [|k tokens] eqn:E;
    [discriminate|].
  injection H as <- <-. exists c, sep, tokens. auto.
Qed.

Lemma data_line_Ok (self : BroLogReader) (line : str) (rec : record) :
  data_line self line = Ok rec ->
  exists c sep types values fields,
    __getattr__ self (py "separator") = Ok (MStr (c :: sep)) /\
    _metadata self !! py "types" = Some types /\
    _cast_values self (split (c :: sep) (rstrip 10 line)) types = Ok values /\
    __getattr__ self (py "fields") ≫= py_iter = Ok fields /\
    rec = dict (zip fields values).
Proof.
  unfold data_line. intros H.
  apply bind_res_Ok_inv in H as (m & Hm & H).
  apply bind_res_Ok_inv in H as (l & Hl & H).
  apply py_split_Ok in Hl as (c & sep & -> & ->).
  apply bind_res_Ok_inv in H as (types & Ht & H).
  apply bind_res_Ok_inv in H as (values & Hv & H).
  apply bind_res_Ok_inv in H as (fields & Hf & H).
  apply bind_res_Ok_inv in H as (fl & Hfl & H).
  injection H as <-.
  exists c, sep, types, values, fl. split; [exact Hm|].
  split; [destruct (_metadata self !! py "types"); [congruence | discriminate]|].
  split; [exact Hv|]. split; [|reflexivity].
  rewrite Hf, bind_Ok. exact Hfl.
Qed.

End Helpers.

(** ** The unset marker *)

(** C1. Whatever the declared type (scalar, aggregate or unknown) and
    whatever the setting of [decompose_aggregate], a cell that is equal to
    the value of [unset_field] decodes to [None]: the comparison is the
    first thing [_cast_value] does, before the type is looked at. *)
Theorem unset_marker_decodes_to_None {RT : Runtime} (self : BroLogReader)
    (value type_ : str) :
  __getattr__ self (py "unset_field") = Ok (MStr value) ->
  _cast_value self value type_ = Ok VNone.
Proof. apply _cast_value_unset. Qed.

Lemma unset_marker_decodes_to_None_witness :
  __getattr__ (sample_reader false) (py "unset_field") = Ok (MStr (py "-")) /\
  _cast_value (sample_reader false) (py "-") (py "set[addr]") = Ok VNone.
Proof.
  split; [vm_compute; reflexivity|].
  apply (@unset_marker_decodes_to_None bare_runtime).
  vm_compute; reflexivity.
Defined.

(** ** Aggregates left as they are *)

(** C8. In a reader built with [decompose_aggregate=False], a cell of an
    aggregate type comes back as the string it is, whatever [empty_field]
    and [set_separator] hold (so also when the cell is the empty marker),
    unless it is the unset marker, which still decodes to [None]. *)
Theorem aggregate_passthrough {RT : Runtime} (self : BroLogReader)
    (value type_ : str) (unset : mvalue) (groups : str * str) :
  _decompose_aggregate self = false ->
  __getattr__ self (py "unset_field") = Ok unset ->
  AGGREGATE_TYPE_RE_match type_ = Some groups ->
  (unset <> MStr value -> _cast_value self value type_ = Ok (VStr value)) /\
  (unset <> MStr value ->
   __getattr__ self (py "empty_field") = Ok (MStr value) ->
   _cast_value self value type_ = Ok (VStr value)) /\
  (unset = MStr value -> _cast_value self value type_ = Ok VNone).
Proof.
  intros Hd Hu Hm.
  assert (Hraw : unset <> MStr value ->
                 _cast_value self value type_ = Ok (VStr value)).
  { intros Hne. rewrite _cast_value_unfold. unfold cast_value_body.
    rewrite Hu. simpl.
    destruct (str_eq value unset) eqn:E;
      [apply str_eq_true in E; contradiction|].
    rewrite Hm. destruct groups as [agg_type subtype].
    rewrite Hd. reflexivity. }
  split; [exact Hraw|]. split; [intros Hne _; exact (Hraw Hne)|].
  intros ->. apply _cast_value_unset. exact Hu.
Qed.

Lemma aggregate_passthrough_witness :
  _cast_value (sample_reader false) (py "(empty)") (py "set[string]")
    = Ok (VStr (py "(empty)")) /\
  _cast_value (sample_reader false) (py "a,b,a") (py "set[string]")
    = Ok (VStr (py "a,b,a")).
Proof.
  set (self := sample_reader false).
  assert (Hd : _decompose_aggregate self = false) by (vm_compute; reflexivity).
  assert (Hu : __getattr__ self (py "unset_field") = Ok (MStr (py "-")))
    by (vm_compute; reflexivity).
  assert (Hm : @AGGREGATE_TYPE_RE_match bare_runtime (py "set[string]")
               = Some (py "set", py "string")) by (vm_compute; reflexivity).
  split.
  - destruct (aggregate_passthrough self (py "(empty)") _ _ _ Hd Hu Hm)
      as (_ & H & _).
    apply H; [discriminate | vm_compute; reflexivity].
  - destruct (aggregate_passthrough self (py "a,b,a") _ _ _ Hd Hu Hm)
      as (H & _).
    apply H. discriminate.
Defined.

(** ** The scalar types *)

(** C3, as the code has it. A cell that is not the unset marker comes
    back unchanged under the types [enum] and [string]. [TYPES] is a plain
    dictionary without a default: a type name that is no aggregate and is
    not one of its keys raises [KeyError] with that name. *)
Theorem enum_string_passthrough_unknown_KeyError {RT : Runtime}
    (self : BroLogReader) (value type_ : str) (unset : mvalue) :
  __getattr__ self (py "unset_field") = Ok unset ->
  unset <> MStr value ->
  (type_ = py "enum" \/ type_ = py "string" ->
   _cast_value self value type_ = Ok (VStr value)) /\
  (AGGREGATE_TYPE_RE_match type_ = None -> type_ ∉ TYPES_keys ->
   _cast_value self value type_ = Raise (KeyError type_)).
Proof.
  intros Hu Hne. split.
  - intros [-> | ->];
      rewrite (_cast_value_set_scalar _ _ _ _ Hu Hne) by reflexivity.
    + rewrite TYPES_enum. reflexivity.
    + rewrite TYPES_string. reflexivity.
  - intros Hm Hk. rewrite (_cast_value_set_scalar _ _ _ _ Hu Hne Hm).
    rewrite (TYPES_missing _ Hk). reflexivity.
Qed.

Lemma enum_string_passthrough_unknown_KeyError_witness :
  _cast_value (sample_reader true) (py "tcp") (py "enum")
    = Ok (VStr (py "tcp")) /\
  _cast_value (sample_reader true) (py "0.5") (py "double")
    = Raise (KeyError (py "double")).
Proof.
  set (self := sample_reader true).
  assert (Hu : __getattr__ self (py "unset_field") = Ok (MStr (py "-")))
    by (vm_compute; reflexivity).
  split.
  - destruct (enum_string_passthrough_unknown_KeyError
                self (py "tcp") (py "enum") _ Hu) as (H & _);
      [discriminate|].
    apply H. left. reflexivity.
  - destruct (enum_string_passthrough_unknown_KeyError
                self (py "0.5") (py "double") _ Hu) as (_ & H);
      [discriminate|].
    apply H; [vm_compute; reflexivity|].
    vm_compute. intros H1. repeat (apply elem_of_cons in H1 as [H1|H1];
      [discriminate|]). inversion H1.
Defined.

(** C3 as it is written fails: the unset marker is ["-"], the cell
    ["0.5"] is not it, the type name [double] (a type Bro does write) does
    not match the aggregate pattern and is no key of [TYPES]; decoding
    raises [KeyError] instead of returning the cell. *)
Lemma unknown_type_is_not_passed_through :
  __getattr__ (sample_reader true) (py "unset_field") = Ok (MStr (py "-")) /\
  py "0.5" <> py "-" /\
  @AGGREGATE_TYPE_RE_match bare_runtime (py "double") = None /\
  @TYPES bare_runtime (py "double") = Raise (KeyError (py "double")) /\
  _cast_value (sample_reader true) (py "0.5") (py "double")
    = Raise (KeyError (py "double")) /\
  _cast_value (sample_reader true) (py "0.5") (py "double")
    <> Ok (VStr (py "0.5")).
Proof.
  vm_compute. repeat split; discriminate.
Qed.

(** The same on every runtime: no library call is reached. *)
Example unknown_type_on_every_runtime {RT : Runtime} :
  _cast_value (after_header true) (py "0.5") (py "double")
  = Raise (KeyError (py "double")).
Proof. vm_compute. reflexivity. Qed.

(** C4. A cell that [int] reads as the integer [n] and that is not the
    unset marker decodes under [count] to [n] when [0 <= n] and raises
    otherwise, the error naming the bound [0]; under [port] it decodes to
    [n] when [0 <= n < 65536] and raises otherwise, the error naming the
    range [0], [65536] that [n] is not in. *)
Theorem count_port_range {RT : Runtime} (self : BroLogReader) (value : str)
    (n : Z) (unset : mvalue) :
  __getattr__ self (py "unset_field") = Ok unset ->
  unset <> MStr value ->
  py_int value = Ok n ->
  ((0 <= n)%Z -> _cast_value self value (py "count") = Ok (VInt n)) /\
  ((n < 0)%Z ->
   _cast_value self value (py "count") = Raise (ValueError (NotGreaterEq n 0))) /\
  ((0 <= n < 65536)%Z -> _cast_value self value (py "port") = Ok (VInt n)) /\
  (~ (0 <= n < 65536)%Z ->
   _cast_value self value (py "port")
   = Raise (ValueError (NotBetween n 0 65536))).
Proof.
  intros Hu Hne Hn.
  rewrite !(_cast_value_set_scalar _ _ _ _ Hu Hne) by reflexivity.
  rewrite TYPES_count, TYPES_port. simpl. unfold range_check.
  rewrite Hn. simpl. repeat split; intros H.
  - rewrite (proj2 (Z.leb_le 0 n)) by lia. reflexivity.
  - rewrite (proj2 (Z.leb_gt 0 n)) by lia. reflexivity.
  - rewrite (proj2 (Z.leb_le 0 n)), (proj2 (Z.ltb_lt n _)) by lia. reflexivity.
  - destruct (Z.leb_spec 0 n); [|reflexivity].
    rewrite (proj2 (Z.ltb_ge n (2 ^ 16))) by lia. reflexivity.
Qed.

Lemma count_port_range_witness :
  _cast_value (sample_reader true) (py "80") (py "port") = Ok (VInt 80) /\
  _cast_value (sample_reader true) (py "70000") (py "port")
    = Raise (ValueError (NotBetween 70000 0 65536)) /\
  _cast_value (sample_reader true) (py "-1") (py "count")
    = Raise (ValueError (NotGreaterEq (-1) 0)).
Proof.
  assert (Hu : __getattr__ (sample_reader true) (py "unset_field")
               = Ok (MStr (py "-"))) by (vm_compute; reflexivity).
  split; [|split].
  - destruct (count_port_range (sample_reader true) (py "80") 80 _ Hu)
      as (_ & _ & H & _);
      [discriminate | vm_compute; reflexivity | apply H; lia].
  - destruct (count_port_range (sample_reader true) (py "70000") 70000 _ Hu)
      as (_ & _ & _ & H);
      [discriminate | vm_compute; reflexivity | apply H; lia].
  - destruct (count_port_range (sample_reader true) (py "-1") (-1) _ Hu)
      as (_ & H & _);
      [discriminate | vm_compute; reflexivity | apply H; lia].
Defined.

(** C5. [bool_from_str] gives [True] on the five literals 1 y Y t T and
    on nothing else, [False] on 0 n N f F and on nothing else, and raises
    [ValueError] on every other string, [true] and [yes] among them; it is
    the caster of the type [bool], applied to every cell that is not the
    unset marker. *)
Theorem bool_literals {RT : Runtime} (v : str) :
  (bool_from_str v = Ok true <->
   v ∈ [py "1"; py "y"; py "Y"; py "t"; py "T"]) /\
  (bool_from_str v = Ok false <->
   v ∈ [py "0"; py "n"; py "N"; py "f"; py "F"]) /\
  (v ∉ [py "1"; py "y"; py "Y"; py "t"; py "T";
        py "0"; py "n"; py "N"; py "f"; py "F"] <->
   bool_from_str v = Raise (ValueError (NotBoolLike v))) /\
  bool_from_str (py "true") = Raise (ValueError (NotBoolLike (py "true"))) /\
  bool_from_str (py "yes") = Raise (ValueError (NotBoolLike (py "yes"))) /\
  (forall (self : BroLogReader) (unset : mvalue),
     __getattr__ self (py "unset_field") = Ok unset -> unset <> MStr v ->
     _cast_value self v (py "bool") = VBool <$> bool_from_str v).
Proof.
  assert (Hdisj : forall x : str,
            x ∈ [py "1"; py "y"; py "Y"; py "t"; py "T"] ->
            x ∈ [py "0"; py "n"; py "N"; py "f"; py "F"] -> False).
  { intros x H1 H2.
    repeat (apply elem_of_cons in H1 as [->|H1]);
      try (inversion H1; fail);
      repeat (apply elem_of_cons in H2 as [H2|H2]; [discriminate|]);
      inversion H2. }
  split; [split | split; [split | split; [split | split; [|split]]]];
    try reflexivity; unfold bool_from_str.
  - case_bool_decide; [auto|]. case_bool_decide; discriminate.
  - intros H. rewrite bool_decide_eq_true_2 by exact H. reflexivity.
  - case_bool_decide; [discriminate|]. case_bool_decide; [auto|discriminate].
  - intros H. rewrite bool_decide_eq_false_2 by (intros H1; exact (Hdisj v H1 H)).
    rewrite bool_decide_eq_true_2 by exact H. reflexivity.
  - intros H. rewrite !bool_decide_eq_false_2; [reflexivity | |].
    + intros H1. apply H. change (v ∈ [py "1"; py "y"; py "Y"; py "t"; py "T"]
        ++ [py "0"; py "n"; py "N"; py "f"; py "F"]).
      apply elem_of_app. right. exact H1.
    + intros H1. apply H. change (v ∈ [py "1"; py "y"; py "Y"; py "t"; py "T"]
        ++ [py "0"; py "n"; py "N"; py "f"; py "F"]).
      apply elem_of_app. left. exact H1.
  - intros H Hin.
    change (v ∈ [py "1"; py "y"; py "Y"; py "t"; py "T"]
        ++ [py "0"; py "n"; py "N"; py "f"; py "F"]) in Hin.
    apply elem_of_app in Hin as [Hin|Hin].
    + rewrite bool_decide_eq_true_2 in H by exact Hin. discriminate.
    + rewrite bool_decide_eq_false_2 in H by (intros H1; exact (Hdisj v H1 Hin)).
      rewrite bool_decide_eq_true_2 in H by exact Hin. discriminate.
  - intros self unset Hu Hne.
    rewrite (_cast_value_set_scalar _ _ _ _ Hu Hne) by reflexivity.
    rewrite TYPES_bool. reflexivity.
Qed.

Lemma bool_literals_witness :
  _cast_value (sample_reader true) (py "T") (py "bool") = Ok (VBool true) /\
  _cast_value (sample_reader true) (py "true") (py "bool")
    = Raise (ValueError (NotBoolLike (py "true"))).
Proof.
  assert (Hu : __getattr__ (sample_reader true) (py "unset_field")
               = Ok (MStr (py "-"))) by (vm_compute; reflexivity).
  split.
  - destruct (@bool_literals bare_runtime (py "T")) as (_ & _ & _ & _ & _ & H).
    rewrite (H _ _ Hu) by discriminate. reflexivity.
  - destruct (@bool_literals bare_runtime (py "true")) as (_ & _ & _ & _ & _ & H).
    rewrite (H _ _ Hu) by discriminate. reflexivity.
Defined.

(** ** Aggregates taken apart *)

(** C2. In a reader that decomposes aggregates, for a cell of type
    [kind[elementType]] that is not the unset marker: if it is the empty
    marker it decodes to the empty set for [set] and to the empty tuple
    for [vector]; otherwise it is split on [set_separator], every piece is
    decoded with [elementType], and the results make up a tuple in the
    order of the pieces for [vector], a set (each element once, all of
    them there) for [set]. With [,] as separator the [vector[count]] cell
    [1,2,3] decodes to the tuple (1, 2, 3). *)
Theorem aggregate_decomposition {RT : Runtime} (self : BroLogReader)
    (value type_ agg_type subtype : str) (unset empty : mvalue) :
  _decompose_aggregate self = true ->
  __getattr__ self (py "unset_field") = Ok unset -> unset <> MStr value ->
  __getattr__ self (py "empty_field") = Ok empty ->
  AGGREGATE_TYPE_RE_match type_ = Some (agg_type, subtype) ->
  (empty = MStr value ->
   (agg_type = py "set" -> _cast_value self value type_ = Ok (VSet [])) /\
   (agg_type = py "vector" -> _cast_value self value type_ = Ok (VTuple []))) /\
  (empty <> MStr value ->
   forall (c : char) (sep : str) (vs : list DecodedValue),
     __getattr__ self (py "set_separator") = Ok (MStr (c :: sep)) ->
     Forall2 (fun piece v => _cast_value self piece subtype = Ok v)
             (split (c :: sep) value) vs ->
     (agg_type = py "vector" -> _cast_value self value type_ = Ok (VTuple vs)) /\
     (agg_type = py "set" ->
      exists l, _cast_value self value type_ = Ok (VSet l) /\
                NoDup l /\ forall x, x ∈ l <-> x ∈ vs)) /\
  _cast_value (after_header true) (py "1,2,3") (py "vector[count]")
  = Ok (VTuple [VInt 1; VInt 2; VInt 3]).
Proof.
  intros Hd Hu Hnu He Hm. split; [|split].
  - intros ->.
    rewrite (_cast_value_empty _ _ _ _ _ _ Hd Hu Hnu He Hm).
    split; intros ->; reflexivity.
  - intros Hne c sep vs Hs Hvs.
    rewrite (_cast_value_aggregate _ _ _ _ _ _ _ _ _ Hd Hu Hnu He Hne Hs Hm).
    apply mapM_res_Ok in Hvs. rewrite Hvs.
    split; intros ->.
    + reflexivity.
    + exists (remove_dups vs). split; [reflexivity|].
      split; [apply NoDup_remove_dups|]. intros x. apply elem_of_remove_dups.
  - vm_compute. reflexivity.
Qed.

Lemma aggregate_decomposition_witness :
  _cast_value (sample_reader true) (py "(empty)") (py "vector[count]")
    = Ok (VTuple []) /\
  _cast_value (sample_reader true) (py "1,2,3") (py "vector[count]")
    = Ok (VTuple [VInt 1; VInt 2; VInt 3]) /\
  exists l, _cast_value (sample_reader true) (py "a,b,a") (py "set[string]")
            = Ok (VSet l) /\ NoDup l /\
            forall x, x ∈ l <-> x ∈ [VStr (py "a"); VStr (py "b"); VStr (py "a")].
Proof.
  assert (Hd : _decompose_aggregate (sample_reader true) = true)
    by (vm_compute; reflexivity).
  assert (Hu : __getattr__ (sample_reader true) (py "unset_field")
               = Ok (MStr (py "-"))) by (vm_compute; reflexivity).
  assert (He : __getattr__ (sample_reader true) (py "empty_field")
               = Ok (MStr (py "(empty)"))) by (vm_compute; reflexivity).
  assert (Hs : __getattr__ (sample_reader true) (py "set_separator")
               = Ok (MStr (44 :: []))) by (vm_compute; reflexivity).
  assert (Hv : @AGGREGATE_TYPE_RE_match bare_runtime (py "vector[count]")
               = Some (py "vector", py "count")) by (vm_compute; reflexivity).
  assert (Hc : @AGGREGATE_TYPE_RE_match bare_runtime (py "set[string]")
               = Some (py "set", py "string")) by (vm_compute; reflexivity).
  split; [|split].
  - destruct (aggregate_decomposition (sample_reader true) (py "(empty)")
                _ _ _ _ _ Hd Hu ltac:(discriminate) He Hv) as ((_ & H) & _);
      [reflexivity|].
    apply H. reflexivity.
  - destruct (aggregate_decomposition (sample_reader true) (py "1,2,3")
                _ _ _ _ _ Hd Hu ltac:(discriminate) He Hv) as (_ & H & _).
    destruct (H ltac:(discriminate) _ _ [VInt 1; VInt 2; VInt 3] Hs) as (H1 & _).
    + vm_compute. repeat constructor.
    + apply H1. reflexivity.
  - destruct (aggregate_decomposition (sample_reader true) (py "a,b,a")
                _ _ _ _ _ Hd Hu ltac:(discriminate) He Hc) as (_ & H & _).
    destruct (H ltac:(discriminate) _ _
                [VStr (py "a"); VStr (py "b"); VStr (py "a")] Hs) as (_ & H1).
    + vm_compute. repeat constructor.
    + apply H1. reflexivity.
Defined.

(** ** The separator directives *)

(** C6, as the code has it. On a metadata line whose key is [separator]
    or [set_separator], whose value is one token, and whose token the
    codec [unicode_escape] decodes: if what comes out is not exactly one
    character the line raises [BroLogFormatError]; if it is one character,
    that character is stored under the key. *)
Theorem separator_directive {RT : Runtime} (self : BroLogReader)
    (line key s unescaped : str) :
  startswith 35 line = true ->
  header_tokens self line = Ok (key, MStr s) ->
  key = py "separator" \/ key = py "set_separator" ->
  unicode_escape_decode s = Ok unescaped ->
  (length unescaped <> 1%nat ->
   process_line self line = Raise (BroLogFormatError unescaped) /\
   forall logfile, iterate self (line :: logfile)
     = {| yielded := []; raised := Some (BroLogFormatError unescaped);
          reader := self |}) /\
  (length unescaped = 1%nat ->
   process_line self line
     = Ok (set_metadata self key (MStr unescaped), None) /\
   __getattr__ (set_metadata self key (MStr unescaped)) key
     = Ok (MStr unescaped)).
Proof.
  intros Hl Ht Hk Hs.
  assert (Hv : header_value key (MStr s)
               = if bool_decide (length unescaped ≠ 1%nat)
                 then Raise (BroLogFormatError unescaped)
                 else Ok (MStr unescaped)).
  { unfold header_value. destruct Hk as [-> | ->]; simpl; rewrite Hs;
      reflexivity. }
  unfold process_line. rewrite Hl, Ht, bind_Ok. cbn [fst snd]. rewrite Hv.
  split; intros Hlen.
  - rewrite bool_decide_eq_true_2 by exact Hlen. split; [reflexivity|].
    intros logfile. cbn [iterate]. unfold process_line.
    rewrite Hl, Ht, bind_Ok. cbn [fst snd]. rewrite Hv.
    rewrite bool_decide_eq_true_2 by exact Hlen. reflexivity.
  - rewrite bool_decide_eq_false_2 by (intros H; exact (H Hlen)).
    split; [reflexivity|].
    unfold __getattr__, set_metadata. cbn [_metadata].
    rewrite lookup_insert_eq. reflexivity.
Qed.

Lemma separator_directive_witness :
  @process_line bare_runtime (__init__ true) (py "#separator \x09" ++ [10])
    = Ok (set_metadata (__init__ true) (py "separator") (MStr [9]), None) /\
  @process_line bare_runtime (__init__ true) (py "#set_separator \x2c\x20" ++ [10])
    = Raise (BroLogFormatError (py ", ")).
Proof.
  split.
  - destruct (@separator_directive bare_runtime (__init__ true)
                (py "#separator \x09" ++ [10]) (py "separator")
                (py "\x09") [9]) as (_ & H);
      [reflexivity | vm_compute; reflexivity | left; reflexivity
      | reflexivity |].
    apply H. reflexivity.
  - destruct (@separator_directive bare_runtime (__init__ true)
                (py "#set_separator \x2c\x20" ++ [10]) (py "set_separator")
                (py "\x2c\x20") (py ", ")) as (H & _);
      [reflexivity | vm_compute; reflexivity | right; reflexivity
      | reflexivity |].
    apply H. discriminate.
Defined.

(** C6 as it is written fails. The length test that raises
    [BroLogFormatError] comes after [codecs.decode]: a value of several
    tokens, or of none, is a tuple and makes [codecs.decode] raise
    [TypeError]; a truncated escape makes the codec raise
    [UnicodeDecodeError]. In neither case is the value unescaped, and the
    error is not the format error. *)
Lemma separator_value_not_unescaped :
  @process_line bare_runtime (__init__ true) (py "#separator a b" ++ [10])
    = Raise TypeError /\
  @process_line bare_runtime (__init__ true) (py "#separator" ++ [10])
    = Raise TypeError /\
  @process_line bare_runtime (__init__ true) (py "#separator \x9" ++ [10])
    = Raise UnicodeDecodeError /\
  (forall u,
     @process_line bare_runtime (__init__ true) (py "#separator a b" ++ [10])
       <> Raise (BroLogFormatError u) /\
     @process_line bare_runtime (__init__ true) (py "#separator" ++ [10])
       <> Raise (BroLogFormatError u) /\
     @process_line bare_runtime (__init__ true) (py "#separator \x9" ++ [10])
       <> Raise (BroLogFormatError u)).
Proof.
  assert (H1 : @process_line bare_runtime (__init__ true)
                 (py "#separator a b" ++ [10]) = Raise TypeError)
    by (vm_compute; reflexivity).
  assert (H2 : @process_line bare_runtime (__init__ true)
                 (py "#separator" ++ [10]) = Raise TypeError)
    by (vm_compute; reflexivity).
  assert (H3 : @process_line bare_runtime (__init__ true)
                 (py "#separator \x9" ++ [10]) = Raise UnicodeDecodeError)
    by (vm_compute; reflexivity).
  split; [exact H1|]. split; [exact H2|]. split; [exact H3|].
  intros u. rewrite H1, H2, H3. repeat split; discriminate.
Qed.

(** The same on every runtime. *)
Example separator_value_errors_on_every_runtime {RT : Runtime} :
  process_line (__init__ true) (py "#separator a b" ++ [10]) = Raise TypeError /\
  process_line (__init__ true) (py "#separator \x9" ++ [10])
    = Raise UnicodeDecodeError.
Proof. vm_compute. split; reflexivity. Qed.

(** ** Lines with too few or too many cells *)




(** The same on every runtime. *)
Example one_token_headers_on_every_runtime {RT : Runtime} :
  yielded (iterate (__init__ true)
             [ py "#unset_field -" ++ [10]; py "#fields ab" ++ [10];
               py "#types count" ++ [10]; py "- -" ++ [10] ])
  = [[(py "a", VNone); (py "b", VNone)]].
Proof. vm_compute. reflexivity. Qed.

(** ** Data before the schema *)

(** C9, as the code has it. In a run, a data line met while [types] is
    missing raises [KeyError] for [types]; met while [fields] is missing
    it raises, with [AttributeError] for [fields] when the cells decode;
    met while [unset_field] is missing and iterating [types] gives at
    least one item it raises [AttributeError] for [unset_field]. In each
    case the generator stops at that line without a record for it. *)
Theorem data_line_before_schema {RT : Runtime} (self : BroLogReader)
    (line : str) (logfile : list str) :
  reachable self ->
  startswith 35 line = false ->
  (_metadata self !! py "types" = None ->
   iterate self (line :: logfile)
   = {| yielded := []; raised := Some (KeyError (py "types"));
        reader := self |}) /\
  (_metadata self !! py "fields" = None ->
   exists e,
     iterate self (line :: logfile)
     = {| yielded := []; raised := Some e; reader := self |} /\
     forall types values c,
       __getattr__ self (py "separator") = Ok (MStr [c]) ->
       _metadata self !! py "types" = Some types ->
       _cast_values self (split [c] (rstrip 10 line)) types = Ok values ->
       e = AttributeError (py "fields")) /\
  (_metadata self !! py "unset_field" = None ->
   forall types t tl,
     _metadata self !! py "types" = Some types ->
     py_iter types = Ok (t :: tl) ->
     iterate self (line :: logfile)
     = {| yielded := []; raised := Some (AttributeError (py "unset_field"));
          reader := self |}).
Proof.
  intros Hr Hl. destruct (reachable_separator _ Hr) as [c Hs].
  cbn [iterate]. rewrite (process_data_line _ _ Hl).
  split; [|split].
  - intros Ht. rewrite (data_line_no_types _ _ _ _ Hs Ht). reflexivity.
  - intros Hf.
    destruct (_metadata self !! py "types") as [types|] eqn:Ht.
    + rewrite (data_line_eq _ _ _ _ _ Hs Ht).
      destruct (_cast_values self (split [c] (rstrip 10 line)) types)
        as [values|e] eqn:Hv.
      * rewrite bind_Ok. unfold __getattr__ at 1. rewrite Hf.
        exists (AttributeError (py "fields")). split; reflexivity.
      * exists e. split; [reflexivity|].
        intros types' values' c' Hs' [= <-] Hv'.
        rewrite Hs in Hs'. injection Hs' as <-. congruence.
    + rewrite (data_line_no_types _ _ _ _ Hs Ht).
      exists (KeyError (py "types")). split; [reflexivity|].
      intros types values c' _ [=].
  - intros Hu types t tl Ht Hi.
    rewrite (data_line_eq _ _ _ _ _ Hs Ht). unfold _cast_values.
    rewrite Hi, bind_Ok.
    destruct (split [c] (rstrip 10 line)) as [|cell cells] eqn:Hc;
      [exfalso; exact (split_nonempty _ _ Hc)|].
    cbn [zip_with mapM fst snd].
    rewrite (_cast_value_no_unset _ _ _ Hu). reflexivity.
Qed.

Lemma data_line_before_schema_witness :
  iterate (@__init__ bare_runtime true) [py "80 tcp" ++ [10]]
    = {| yielded := []; raised := Some (KeyError (py "types"));
         reader := __init__ true |} /\
  iterate (@__init__ bare_runtime true)
          [py "#types port enum" ++ [10]; py "80 tcp" ++ [10]]
    = {| yielded := []; raised := Some (AttributeError (py "unset_field"));
         reader := set_metadata (__init__ true) (py "types")
                     (MTuple [py "port"; py "enum"]) |}.
Proof.
  split.
  - destruct (@data_line_before_schema bare_runtime (__init__ true)
                (py "80 tcp" ++ [10]) []) as (H & _);
      [apply reachable_init | reflexivity |].
    apply H. vm_compute. reflexivity.
  - change (iterate (@__init__ bare_runtime true)
              [py "#types port enum" ++ [10]; py "80 tcp" ++ [10]])
      with (iterate (set_metadata (@__init__ bare_runtime true) (py "types")
                       (MTuple [py "port"; py "enum"]))
              [py "80 tcp" ++ [10]]).
    destruct (@data_line_before_schema bare_runtime
                (set_metadata (__init__ true) (py "types")
                   (MTuple [py "port"; py "enum"]))
                (py "80 tcp" ++ [10]) []) as (_ & _ & H).
    + eapply (reachable_line (__init__ true) _
                (py "#types port enum" ++ [10]) None);
        [apply reachable_init | vm_compute; reflexivity].
    + reflexivity.
    + apply (H ltac:(vm_compute; reflexivity)
               (MTuple [py "port"; py "enum"]) (py "port") [py "enum"]);
        [vm_compute; reflexivity | reflexivity].
Defined.

(** C9 as it is written fails. The log declares [fields] and [types],
    both without a column, and no [unset_field]; its data line yields the
    empty record and nothing is raised: with no type there is no cell to
    cast, and [unset_field] is never read. *)
Lemma record_without_unset_field :
  reader (iterate (@__init__ bare_runtime true) (take 2 empty_schema_log))
     = reader (iterate (@__init__ bare_runtime true) empty_schema_log) /\
  _metadata (reader (iterate (@__init__ bare_runtime true) empty_schema_log))
     !! py "unset_field" = None /\
  _metadata (reader (iterate (@__init__ bare_runtime true) empty_schema_log))
     !! py "types" = Some (MTuple []) /\
  _metadata (reader (iterate (@__init__ bare_runtime true) empty_schema_log))
     !! py "fields" = Some (MTuple []) /\
  raised (iterate (@__init__ bare_runtime true) empty_schema_log) = None /\
  yielded (iterate (@__init__ bare_runtime true) empty_schema_log) = [[]].
Proof. vm_compute. repeat split. Qed.

(** The same on every runtime. *)
Example empty_schema_on_every_runtime {RT : Runtime} :
  raised (iterate (__init__ true) empty_schema_log) = None /\
  yielded (iterate (__init__ true) empty_schema_log) = [[]].
Proof. vm_compute. split; reflexivity. Qed.

(** ** The separator in effect *)

(** C7. Take a run that has come through the lines [pre] without raising,
    and the next line [line]. What [pre] yielded is what it yields when
    nothing follows: no later line, directive or not, changes it. If
    [line] raises nothing, it has been split with the separator the
    reader held before it, on a metadata line to find the key and its
    value and on a data line to find the cells; the reader holds a new
    separator after it only if its key is [separator], and the lines of
    [post] are processed in that reader. *)
Theorem separator_in_effect {RT : Runtime} (start self : BroLogReader)
    (pre post : list str) (line : str) :
  raised (iterate start pre) = None ->
  self = reader (iterate start pre) ->
  yielded (iterate start (pre ++ line :: post))
    = yielded (iterate start pre) ++ yielded (iterate self (line :: post)) /\
  forall self' y, process_line self line = Ok (self', y) ->
    exists c sep,
      __getattr__ self (py "separator") = Ok (MStr (c :: sep)) /\
      (startswith 35 line = true ->
       exists key tokens v,
         split (c :: sep) (rstrip 10 (lstrip 35 line)) = key :: tokens /\
         header_value key (maybe_singleton tokens) = Ok v /\
         y = None /\ self' = set_metadata self key v /\
         __getattr__ self' (py "separator")
         = (if bool_decide (key = py "separator") then Ok v
            else Ok (MStr (c :: sep))) /\
         iterate self (line :: post) = iterate self' post) /\
      (startswith 35 line = false ->
       exists types values fields,
         _metadata self !! py "types" = Some types /\
         _cast_values self (split (c :: sep) (rstrip 10 line)) types
           = Ok values /\
         __getattr__ self (py "fields") ≫= py_iter = Ok fields /\
         y = Some (dict (zip fields values)) /\ self' = self /\
         yielded (iterate self (line :: post))
           = dict (zip fields values) :: yielded (iterate self post)).
Proof.
  intros Hpre ->. split.
  - rewrite iterate_app, Hpre. reflexivity.
  - intros self' y Hp. pose proof (process_line_Ok _ _ _ _ Hp) as Hinv.
    destruct (startswith 35 line) eqn:Hl.
    + destruct Hinv as (key & rest & v & Ht & Hv & -> & ->).
      apply header_tokens_Ok in Ht as (c & sep & tokens & Hs & Hsplit & ->).
      exists c, sep. split; [exact Hs|]. split; [|discriminate].
      intros _. exists key, tokens, v.
      repeat (split; [first [exact Hsplit | exact Hv | reflexivity]|]).
      split.
      * rewrite getattr_set_metadata, Hs. reflexivity.
      * cbn [iterate]. rewrite Hp. reflexivity.
    + destruct Hinv as (-> & rec & Hd & ->).
      apply data_line_Ok in Hd
        as (c & sep & types & values & fields & Hs & Ht & Hv & Hf & ->).
      exists c, sep. split; [exact Hs|]. split; [discriminate|].
      intros _. exists types, values, fields.
      repeat (split; [first [exact Ht | exact Hv | exact Hf | reflexivity]|]).
      cbn [iterate]. rewrite Hp. reflexivity.
Qed.

Lemma separator_in_effect_witness :
  yielded (iterate (@__init__ bare_runtime true) two_separator_log)
  = [ [(py "id.orig_p", VInt 80); (py "proto", VStr (py "tcp;udp"));
       (py "tags", VTuple [VInt 1; VInt 2])];
      [(py "id.orig_p", VInt 443); (py "proto", VStr (py "tcp"));
       (py "tags", VTuple [VInt 3])] ] /\
  __getattr__ (reader (iterate (@__init__ bare_runtime true) two_separator_log))
              (py "separator") = Ok (MStr (py ";")).
Proof.
  destruct (@separator_in_effect bare_runtime (__init__ true)
              (reader (iterate (__init__ true)
                 (bro_header
                  ++ [py "80" ++ [9] ++ py "tcp;udp" ++ [9] ++ py "1,2" ++ [10]])))
              (bro_header
               ++ [py "80" ++ [9] ++ py "tcp;udp" ++ [9] ++ py "1,2" ++ [10]])
              [py "443;tcp;3" ++ [10]]
              (py "#separator" ++ [9] ++ py ";" ++ [10]))
    as [Hpre Hline]; [vm_compute; reflexivity | reflexivity |].
  split.
  - etrans; [exact Hpre|]. vm_compute. reflexivity.
  - vm_compute. reflexivity.
Defined.

(** * Further properties *)

Section SplitJoin.

Lemma has_prefix_app (p s : str) :
  has_prefix p s = true -> s = p ++ drop (length p) s.
Proof.
  revert s. induction p as [|a p IH]; intros [|b s]; simpl;
    try discriminate; try reflexivity.
  intros H. apply andb_true_iff in H as [Hab Hp].
  apply bool_decide_eq_true in Hab as ->. f_equal. apply IH, Hp.
Qed.

Lemma has_prefix_length (p s : str) :
  has_prefix p s = true -> (length p <= length s)%nat.
Proof.
  intros H. rewrite (has_prefix_app _ _ H), length_app. lia.
Qed.

Lemma join_cons (sep x : str) (l : list str) :
  l <> [] -> join sep (x :: l) = x ++ sep ++ join sep l.
Proof. destruct l; [congruence | reflexivity]. Qed.

(** Joining what the scan gives: the piece in hand, then the text left
    once the rest of the separator being passed over is gone. *)
Lemma split_go_join (sep : str) (s : str) :
  sep <> [] ->
  forall (skip : nat) (cur : str),
    (skip <= length s)%nat ->
    join sep (split_go sep skip cur s) = reverse cur ++ drop skip s.
Proof.
  intros Hsep. induction s as [|c s IH]; intros skip cur Hskip.
  - simpl in *. replace skip with O by lia. simpl.
    rewrite app_nil_r. reflexivity.
  - destruct skip as [|k].
    + cbn [split_go drop]. destruct (has_prefix sep (c :: s)) eqn:Hp.
      * rewrite join_cons by apply split_go_nonempty.
        pose proof (has_prefix_length _ _ Hp) as Hlen. simpl in Hlen.
        destruct sep as [|a sep]; [congruence|]. simpl in Hlen.
        rewrite IH by (simpl; lia).
        pose proof (has_prefix_app _ _ Hp) as E. simpl in E.
        f_equal. simpl. symmetry. exact E.
      * rewrite IH by lia. rewrite reverse_cons, <- app_assoc. reflexivity.
    + cbn [split_go drop]. apply IH. simpl in Hskip. lia.
Qed.

(** With a separator of one character no scan ever skips. *)
Lemma split_go_char_pieces (c : N) (s cur : str) :
  c ∉ cur ->
  Forall (fun piece => c ∉ piece) (split_go [c] 0 cur s) /\
  length (split_go [c] 0 cur s) = S (length (filter (fun x => x = c) s)).
Proof.
  revert cur. induction s as [|x s IH]; intros cur Hcur.
  - cbn [split_go]. split; [|reflexivity]. constructor; [|constructor].
    rewrite elem_of_reverse. exact Hcur.
  - cbn [split_go has_prefix]. rewrite filter_cons.
    destruct (decide (x = c)) as [->|Hne].
    + rewrite bool_decide_eq_true_2 by reflexivity. cbn [andb length pred].
      destruct (IH [] ltac:(apply not_elem_of_nil)) as [H1 H2].
      split; [|cbn [length]; rewrite H2; reflexivity].
      constructor; [|exact H1].
      rewrite elem_of_reverse. exact Hcur.
    + rewrite bool_decide_eq_false_2 by congruence. cbn [andb].
      apply IH. intros H. apply elem_of_cons in H as [H|H]; congruence.
Qed.

End SplitJoin.

(** X1. Splitting loses nothing: for a separator that is not empty, the
    pieces of [s.split(sep)] joined with [sep] are [s] again, and there is
    at least one piece. When the separator is one character, as it is in
    every reader, no piece holds it and there is one piece more than
    there are separators in [s]. *)
Theorem split_join_round_trip (sep s : str) :
  sep <> [] ->
  join sep (split sep s) = s /\
  split sep s <> [] /\
  forall c, sep = [c] ->
    Forall (fun piece => c ∉ piece) (split sep s) /\
    length (split sep s) = S (length (filter (fun x => x = c) s)).
Proof.
  intros Hsep. split; [|split].
  - unfold split. rewrite (split_go_join sep s Hsep 0 []) by lia.
    reflexivity.
  - apply split_go_nonempty.
  - intros c ->. apply split_go_char_pieces, not_elem_of_nil.
Qed.

Lemma split_join_round_trip_witness :
  join [9] (split [9] (py "80" ++ [9] ++ py "tcp" ++ [9] ++ [9]))
  = py "80" ++ [9] ++ py "tcp" ++ [9] ++ [9] /\
  length (split [9] (py "80" ++ [9] ++ py "tcp" ++ [9] ++ [9])) = 4%nat.
Proof.
  destruct (split_join_round_trip [9]
              (py "80" ++ [9] ++ py "tcp" ++ [9] ++ [9])) as (H1 & _ & H2);
    [discriminate|].
  split; [exact H1|]. destruct (H2 9 eq_refl) as [_ H]. exact H.
Defined.

Section RunInvariants.
Context {RT : Runtime}.

Lemma maybe_singleton_not_datetime (tokens : list str) (t : datetime) :
  maybe_singleton tokens <> MDatetime t.
Proof. destruct tokens as [|x [|y l]]; discriminate. Qed.

(** What the value stored by a metadata line can be. *)
Lemma header_value_Ok (key : str) (rest v : mvalue) :
  header_value key rest = Ok v ->
  (key = py "separator" \/ key = py "set_separator" -> exists c, v = MStr [c]) /\
  (forall t, v = MDatetime t ->
     key = py "open" \/ key = py "close" \/ rest = MDatetime t).
Proof.
  unfold header_value. case_bool_decide as Hsep.
  - destruct rest as [s| |]; try discriminate.
    intros H. apply bind_res_Ok_inv in H as (u & _ & H).
    case_bool_decide as Hlen; [discriminate|]. injection H as <-.
    split; [|discriminate].
    intros _. destruct u as [|c [|]]; simpl in Hlen; try lia. eauto.
  - case_bool_decide as Hopen.
    + intros _. split.
      * intros [-> | ->]; exfalso; apply Hsep; [left | right; left].
      * intros t _.
        apply elem_of_cons in Hopen as [->|Hopen]; [auto|].
        apply elem_of_cons in Hopen as [->|Hopen]; [auto|].
        inversion Hopen.
    + intros [= <-]. split.
      * intros [-> | ->]; exfalso; apply Hsep; [left | right; left].
      * auto.
Qed.

Lemma reachable_well_formed (self : BroLogReader) :
  reachable self ->
  (exists c, _metadata self !! py "separator" = Some (MStr [c])) /\
  (forall v, _metadata self !! py "set_separator" = Some v ->
             exists c, v = MStr [c]) /\
  (forall k t, _metadata self !! k = Some (MDatetime t) ->
               k = py "open" \/ k = py "close").
Proof.
  induction 1 as [d | self self' line y _ (IH1 & IH2 & IH3) Hp].
  - split; [exists 32; reflexivity|]. split.
    + intros v H. vm_compute in H. discriminate.
    + intros k t H. unfold __init__ in H. cbn [_metadata] in H.
      apply lookup_singleton_Some in H as [_ [=]].
  - apply process_line_Ok in Hp. destruct (startswith 35 line).
    2:{ destruct Hp as [-> _]. auto. }
    destruct Hp as (key & rest & v & Ht & Hv & _ & ->).
    apply header_tokens_Ok in Ht as (c & sep & tokens & _ & _ & ->).
    apply header_value_Ok in Hv as [Hv1 Hv2].
    unfold set_metadata. cbn [_metadata]. split; [|split].
    + destruct (decide (key = py "separator")) as [->|Hne].
      * rewrite lookup_insert_eq. destruct Hv1 as [c' ->]; eauto.
      * rewrite lookup_insert_ne by exact Hne. exact IH1.
    + intros v'. destruct (decide (key = py "set_separator")) as [->|Hne].
      * rewrite lookup_insert_eq. intros [= <-]. apply Hv1. auto.
      * rewrite lookup_insert_ne by exact Hne. apply IH2.
    + intros k t. destruct (decide (key = k)) as [->|Hne].
      * rewrite lookup_insert_eq. intros [= ->].
        destruct (Hv2 t eq_refl) as [H|[H|H]]; auto.
        exfalso. exact (maybe_singleton_not_datetime _ _ H).
      * rewrite lookup_insert_ne by exact Hne. apply IH3.
Qed.

(** A line keeps the flag and forgets no key. *)
Lemma process_line_keeps (self self' : BroLogReader) (line : str)
    (y : option record) :
  process_line self line = Ok (self', y) ->
  _decompose_aggregate self' = _decompose_aggregate self /\
  forall name, is_Some (_metadata self !! name) ->
               is_Some (_metadata self' !! name).
Proof.
  intros Hp. apply process_line_Ok in Hp. destruct (startswith 35 line).
  - destruct Hp as (key & rest & v & _ & _ & _ & ->).
    split; [reflexivity|]. intros name H.
    unfold set_metadata. cbn [_metadata].
    destruct (decide (key = name)) as [->|Hne].
    + rewrite lookup_insert_eq. eauto.
    + rewrite lookup_insert_ne by exact Hne. exact H.
  - destruct Hp as [-> _]. auto.
Qed.

End RunInvariants.

(** X2. Whatever the log, the metadata of a reader stays well formed all
    along a run: [separator] is always there and is one character (so
    reading [self.separator] never fails and [split] never gets an empty
    or non-string separator), [set_separator] is one character once it is
    set, and a time value is only ever stored under [open] or [close] (so
    [types], [fields] and the markers are strings or tuples of strings). *)
Theorem run_keeps_metadata_well_formed {RT : Runtime}
    (decompose_aggregate : bool) (logfile : list str) :
  (exists c, __getattr__ (reader (iterate (__init__ decompose_aggregate) logfile))
                         (py "separator") = Ok (MStr [c])) /\
  (forall v, __getattr__ (reader (iterate (__init__ decompose_aggregate) logfile))
                         (py "set_separator") = Ok v ->
             exists c, v = MStr [c]) /\
  (forall k t, __getattr__ (reader (iterate (__init__ decompose_aggregate) logfile))
                           k = Ok (MDatetime t) ->
               k = py "open" \/ k = py "close").
Proof.
  destruct (reachable_well_formed
              (reader (iterate (__init__ decompose_aggregate) logfile)))
    as ([c H1] & H2 & H3).
  { apply reachable_iterate, reachable_init. }
  unfold __getattr__. split; [|split].
  - exists c. rewrite H1. reflexivity.
  - intros v H. apply H2.
    destruct (_metadata _ !! py "set_separator"); [congruence|discriminate].
  - intros k t H. apply (H3 k t).
    destruct (_metadata _ !! k); [congruence|discriminate].
Qed.

(** X3. The reader only grows: over any run, from any reader, the flag
    [_decompose_aggregate] is the one given at construction, and a
    metadata key that is set is still set at the end (its value may have
    been replaced, it is never deleted). *)
Theorem run_keeps_flag_and_keys {RT : Runtime} (self : BroLogReader)
    (logfile : list str) :
  _decompose_aggregate (reader (iterate self logfile))
    = _decompose_aggregate self /\
  forall name, is_Some (_metadata self !! name) ->
               is_Some (_metadata (reader (iterate self logfile)) !! name).
Proof.
  revert self. induction logfile as [|line logfile IH]; intros self.
  - split; [reflexivity | auto].
  - cbn [iterate].
    destruct (process_line self line) as [[self' [rec|]]|] eqn:Hp; cbn;
      try (split; [reflexivity | auto]).
    + destruct (process_line_keeps _ _ _ _ Hp) as [Hf Hk].
      destruct (IH self') as [IHf IHk]. split; [congruence | auto].
    + destruct (process_line_keeps _ _ _ _ Hp) as [Hf Hk].
      destruct (IH self') as [IHf IHk]. split; [congruence | auto].
Qed.

Section CastHelpers.
Context {RT : Runtime}.

(** A cell of an aggregate type that is not the unset marker, in a
    reader that decomposes. *)
Lemma _cast_value_decompose (self : BroLogReader) (value type_ : str)
    (agg_type subtype : str) (unset : mvalue) :
  _decompose_aggregate self = true ->
  __getattr__ self (py "unset_field") = Ok unset -> unset <> MStr value ->
  AGGREGATE_TYPE_RE_match type_ = Some (agg_type, subtype) ->
  _cast_value self value type_
  = (empty ← __getattr__ self (py "empty_field");
     if str_eq value empty then
       ctor ← AGGREGATE_TYPES agg_type;
       Ok (ctor [])
     else
       ctor ← AGGREGATE_TYPES agg_type;
       sep ← __getattr__ self (py "set_separator");
       pieces ← py_split sep value;
       vs ← mapM (fun v => _cast_value self v subtype) pieces;
       Ok (ctor vs)).
Proof.
  intros Hd Hu Hnu Hm.
  rewrite _cast_value_unfold. unfold cast_value_body.
  rewrite Hu, bind_Ok, (str_eq_false _ _ Hnu), Hm, Hd.
  reflexivity.
Qed.

Lemma getattr_None (self : BroLogReader) (name : str) :
  _metadata self !! name = None ->
  __getattr__ self name = Raise (AttributeError name).
Proof. intros H. unfold __getattr__. rewrite H. reflexivity. Qed.

Lemma AGGREGATE_TYPES_set :
  AGGREGATE_TYPES (py "set") = Ok (fun l => VSet (remove_dups l)).
Proof. reflexivity. Qed.

Lemma AGGREGATE_TYPES_vector : AGGREGATE_TYPES (py "vector") = Ok VTuple.
Proof. reflexivity. Qed.

Lemma AGGREGATE_TYPES_missing (k : str) :
  k <> py "set" -> k <> py "vector" -> AGGREGATE_TYPES k = Raise (KeyError k).
Proof.
  intros H1 H2. unfold AGGREGATE_TYPES.
  rewrite !bool_decide_eq_false_2 by assumption. reflexivity.
Qed.

Lemma AGGREGATE_TYPES_Ok (k : str) (ctor : list DecodedValue -> DecodedValue) :
  AGGREGATE_TYPES k = Ok ctor ->
  (k = py "set" /\ ctor = fun l => VSet (remove_dups l)) \/
  (k = py "vector" /\ ctor = VTuple).
Proof.
  unfold AGGREGATE_TYPES. case_bool_decide as H1.
  - intros [= <-]. auto.
  - case_bool_decide as H2; [|discriminate]. intros [= <-]. auto.
Qed.

(** No caster of [TYPES] returns [None]. *)
Lemma TYPES_not_None (k x : str) (caster : str -> res DecodedValue) :
  TYPES k = Ok caster -> caster x <> Ok VNone.
Proof.
  assert (Hf : forall {A} (f : A -> DecodedValue) (m : res A),
            (forall a, f a <> VNone) -> f <$> m <> Ok VNone).
  { intros A f [a|e] H; [|discriminate]. intros [= E]. exact (H a E). }
  unfold TYPES. intros H.
  repeat case_bool_decide; try discriminate; injection H as <-.
  - apply Hf. discriminate.
  - apply Hf. discriminate.
  - apply Hf. discriminate.
  - discriminate.
  - destruct (py_float x) as [f|]; [|discriminate].
    rewrite bind_Ok. apply Hf. discriminate.
  - apply Hf. discriminate.
  - discriminate.
  - destruct (py_float x) as [f|]; [|discriminate].
    rewrite bind_Ok. apply Hf. discriminate.
Qed.

(** The first element that raises decides. *)
Lemma mapM_res_Raise {A B} (f : A -> res B) (l1 l2 : list A) (x : A) (e : exn) :
  Forall (fun a => exists b, f a = Ok b) l1 -> f x = Raise e ->
  mapM f (l1 ++ x :: l2) = Raise e.
Proof.
  intros H Hx. induction H as [|a l1 [b Hb] _ IH]; simpl.
  - rewrite Hx. reflexivity.
  - rewrite Hb. simpl. rewrite IH. reflexivity.
Qed.

Lemma range_check_Ok (minv maxv : option Z) (val : str) (n : Z) :
  range_check minv maxv val = Ok n <->
  py_int val = Ok n /\
  (forall lo, minv = Some lo -> (lo <= n)%Z) /\
  (forall hi, maxv = Some hi -> (n < hi)%Z).
Proof.
  unfold range_check.
  destruct minv as [lo|], maxv as [hi|]; destruct (py_int val) as [v|e];
    simpl.
  all: try (split; [discriminate | intros [[=] _]]).
  - destruct (Z.leb_spec lo v), (Z.ltb_spec v hi); simpl; split;
      try (intros [= <-]; repeat split; [intros ? [= <-] | intros ? [= <-]];
           lia);
      try discriminate;
      intros ([= <-] & H1 & H2); specialize (H1 _ eq_refl);
      specialize (H2 _ eq_refl); try reflexivity; lia.
  - destruct (Z.leb_spec lo v); simpl; split;
      try (intros [= <-]; repeat split; [intros ? [= <-] | intros ? [=]];
           lia);
      try discriminate;
      intros ([= <-] & H1 & H2); specialize (H1 _ eq_refl);
      try reflexivity; lia.
  - destruct (Z.ltb_spec v hi); simpl; split;
      try (intros [= <-]; repeat split; [intros ? [=] | intros ? [= <-]];
           lia);
      try discriminate;
      intros ([= <-] & H1 & H2); specialize (H2 _ eq_refl);
      try reflexivity; lia.
  - split.
    + intros [= <-]. repeat split; intros ? [=].
    + intros ([= <-] & _). reflexivity.
Qed.

End CastHelpers.

(** X4. In a reader that decomposes, a cell (other than the unset marker)
    whose type has the shape [kind[elementType]] with a kind that is
    neither [set] nor [vector] raises [KeyError] with that kind, whether
    the cell is the empty marker or not and whatever [set_separator] is. *)
Theorem unknown_aggregate_kind_KeyError {RT : Runtime} (self : BroLogReader)
    (value type_ agg_type subtype : str) (unset empty : mvalue) :
  _decompose_aggregate self = true ->
  __getattr__ self (py "unset_field") = Ok unset -> unset <> MStr value ->
  __getattr__ self (py "empty_field") = Ok empty ->
  AGGREGATE_TYPE_RE_match type_ = Some (agg_type, subtype) ->
  agg_type <> py "set" -> agg_type <> py "vector" ->
  _cast_value self value type_ = Raise (KeyError agg_type).
Proof.
  intros Hd Hu Hnu He Hm H1 H2.
  rewrite (_cast_value_decompose _ _ _ _ _ _ Hd Hu Hnu Hm), He, bind_Ok.
  rewrite (AGGREGATE_TYPES_missing _ H1 H2).
  destruct (str_eq value empty); reflexivity.
Qed.

Lemma unknown_aggregate_kind_KeyError_witness :
  _cast_value (sample_reader true) (py "1,2") (py "table[count]")
    = Raise (KeyError (py "table")) /\
  _cast_value (sample_reader true) (py "(empty)") (py "table[count]")
    = Raise (KeyError (py "table")).
Proof.
  assert (Hd : _decompose_aggregate (sample_reader true) = true)
    by (vm_compute; reflexivity).
  assert (Hu : __getattr__ (sample_reader true) (py "unset_field")
               = Ok (MStr (py "-"))) by (vm_compute; reflexivity).
  assert (He : __getattr__ (sample_reader true) (py "empty_field")
               = Ok (MStr (py "(empty)"))) by (vm_compute; reflexivity).
  assert (Hm : @AGGREGATE_TYPE_RE_match bare_runtime (py "table[count]")
               = Some (py "table", py "count")) by (vm_compute; reflexivity).
  split.
  - apply (unknown_aggregate_kind_KeyError _ (py "1,2") _ _ _ _ _ Hd Hu
             ltac:(discriminate) He Hm); discriminate.
  - apply (unknown_aggregate_kind_KeyError _ (py "(empty)") _ _ _ _ _ Hd Hu
             ltac:(discriminate) He Hm); discriminate.
Defined.

(** X5. What decomposition needs from the header. For an aggregate cell
    that is not the unset marker, in a reader that decomposes: without
    [empty_field] it raises [AttributeError] for [empty_field], even when
    the cell is an ordinary list; with [empty_field] set, a cell that is
    not the empty marker, of kind [set] or [vector], raises
    [AttributeError] for [set_separator] when that is missing. (The empty
    marker itself is decoded without [set_separator].) *)
Theorem decomposition_needs_markers {RT : Runtime} (self : BroLogReader)
    (value type_ agg_type subtype : str) (unset : mvalue) :
  _decompose_aggregate self = true ->
  __getattr__ self (py "unset_field") = Ok unset -> unset <> MStr value ->
  AGGREGATE_TYPE_RE_match type_ = Some (agg_type, subtype) ->
  (_metadata self !! py "empty_field" = None ->
   _cast_value self value type_ = Raise (AttributeError (py "empty_field"))) /\
  (forall empty,
     __getattr__ self (py "empty_field") = Ok empty -> empty <> MStr value ->
     agg_type = py "set" \/ agg_type = py "vector" ->
     _metadata self !! py "set_separator" = None ->
     _cast_value self value type_
     = Raise (AttributeError (py "set_separator"))).
Proof.
  intros Hd Hu Hnu Hm.
  rewrite (_cast_value_decompose _ _ _ _ _ _ Hd Hu Hnu Hm). split.
  - intros He. rewrite (getattr_None _ _ He). reflexivity.
  - intros empty He Hne Hk Hs.
    rewrite He, bind_Ok, (str_eq_false _ _ Hne), (getattr_None _ _ Hs).
    destruct Hk as [-> | ->]; reflexivity.
Qed.

Lemma decomposition_needs_markers_witness :
  @_cast_value bare_runtime
     (set_metadata (__init__ true) (py "unset_field") (MStr (py "-")))
     (py "a,b") (py "set[string]")
  = Raise (AttributeError (py "empty_field")).
Proof.
  destruct (@decomposition_needs_markers bare_runtime
              (set_metadata (__init__ true) (py "unset_field") (MStr (py "-")))
              (py "a,b") (py "set[string]") (py "set") (py "string")
              (MStr (py "-"))) as [H _];
    [reflexivity | vm_compute; reflexivity | discriminate
    | vm_compute; reflexivity |].
  apply H. vm_compute. reflexivity.
Defined.

(** X6. Elements are decoded from left to right and the first one that
    cannot be decoded makes the whole cell fail with its exception: no
    partial collection comes back. *)
Theorem first_failing_element {RT : Runtime} (self : BroLogReader)
    (value type_ agg_type subtype : str) (unset empty : mvalue)
    (c : N) (sep : str) (before after : list str) (bad : str) (e : exn) :
  _decompose_aggregate self = true ->
  __getattr__ self (py "unset_field") = Ok unset -> unset <> MStr value ->
  __getattr__ self (py "empty_field") = Ok empty -> empty <> MStr value ->
  __getattr__ self (py "set_separator") = Ok (MStr (c :: sep)) ->
  AGGREGATE_TYPE_RE_match type_ = Some (agg_type, subtype) ->
  agg_type = py "set" \/ agg_type = py "vector" ->
  split (c :: sep) value = before ++ bad :: after ->
  Forall (fun piece => exists v, _cast_value self piece subtype = Ok v) before ->
  _cast_value self bad subtype = Raise e ->
  _cast_value self value type_ = Raise e.
Proof.
  intros Hd Hu Hnu He Hne Hs Hm Hk Hsplit Hbefore Hbad.
  rewrite (_cast_value_decompose _ _ _ _ _ _ Hd Hu Hnu Hm), He, bind_Ok.
  rewrite (str_eq_false _ _ Hne), Hs.
  assert (Hmap : mapM (fun v => _cast_value self v subtype)
                   (split (c :: sep) value) = Raise e).
  { rewrite Hsplit. apply mapM_res_Raise; assumption. }
  destruct Hk as [-> | ->];
    rewrite ?AGGREGATE_TYPES_set, ?AGGREGATE_TYPES_vector, bind_Ok, bind_Ok;
    cbn [py_split]; rewrite bind_Ok, Hmap; reflexivity.
Qed.

Lemma first_failing_element_witness :
  _cast_value (sample_reader true) (py "1,x,-5") (py "vector[count]")
  = Raise (ValueError (InvalidLiteral (py "x"))).
Proof.
  apply (first_failing_element (sample_reader true) (py "1,x,-5")
           (py "vector[count]") (py "vector") (py "count")
           (MStr (py "-")) (MStr (py "(empty)")) 44 []
           [py "1"] [py "-5"] (py "x")).
  all: try (vm_compute; reflexivity); try discriminate.
  - right. reflexivity.
  - constructor; [|constructor]. exists (VInt 1). vm_compute. reflexivity.
Defined.

(** X7. Once [unset_field] is set, a cell decodes to [None] exactly when
    it is the unset marker: no caster and no aggregate constructor ever
    gives [None] for another cell, under any type and either setting of
    [decompose_aggregate]. *)
Theorem None_iff_unset_marker {RT : Runtime} (self : BroLogReader)
    (value type_ : str) (unset : mvalue) :
  __getattr__ self (py "unset_field") = Ok unset ->
  (_cast_value self value type_ = Ok VNone <-> unset = MStr value).
Proof.
  intros Hu. split; [|intros ->; apply _cast_value_unset, Hu].
  intros H. destruct (str_eq value unset) eqn:Hne;
    [apply str_eq_true, Hne|].
  exfalso. rewrite _cast_value_unfold in H. unfold cast_value_body in H.
  rewrite Hu, bind_Ok, Hne in H.
  destruct (AGGREGATE_TYPE_RE_match type_) as [[agg_type subtype]|].
  - destruct (_decompose_aggregate self); [|discriminate].
    apply bind_res_Ok_inv in H as (empty & _ & H).
    destruct (str_eq value empty).
    + apply bind_res_Ok_inv in H as (ctor & Hc & H).
      apply AGGREGATE_TYPES_Ok in Hc as [[_ ->] | [_ ->]]; discriminate.
    + apply bind_res_Ok_inv in H as (ctor & Hc & H).
      apply bind_res_Ok_inv in H as (sep & _ & H).
      apply bind_res_Ok_inv in H as (pieces & _ & H).
      apply bind_res_Ok_inv in H as (vs & _ & H).
      apply AGGREGATE_TYPES_Ok in Hc as [[_ ->] | [_ ->]]; discriminate.
  - apply bind_res_Ok_inv in H as (caster & Hc & H).
    exact (TYPES_not_None _ _ _ Hc H).
Qed.

Lemma None_iff_unset_marker_witness :
  _cast_value (sample_reader true) (py "-") (py "port") = Ok VNone /\
  _cast_value (sample_reader true) (py "0") (py "port") <> Ok VNone.
Proof.
  assert (Hu : __getattr__ (sample_reader true) (py "unset_field")
               = Ok (MStr (py "-"))) by (vm_compute; reflexivity).
  split.
  - apply (None_iff_unset_marker _ (py "-") (py "port") _ Hu). reflexivity.
  - intros H. apply (None_iff_unset_marker _ (py "0") (py "port") _ Hu) in H.
    discriminate.
Defined.

(** X8. What [count] and [port] can give: when decoding succeeds, the
    result is [None] or an integer that [int] read from the cell, never
    negative, and for [port] below 65536. *)
Theorem count_port_results_in_range {RT : Runtime} (self : BroLogReader)
    (value : str) (x : DecodedValue) :
  (_cast_value self value (py "count") = Ok x ->
   x = VNone \/ exists n, x = VInt n /\ py_int value = Ok n /\ (0 <= n)%Z) /\
  (_cast_value self value (py "port") = Ok x ->
   x = VNone \/
   exists n, x = VInt n /\ py_int value = Ok n /\ (0 <= n < 65536)%Z).
Proof.
  split; intros H; rewrite _cast_value_scalar in H by reflexivity;
    apply bind_res_Ok_inv in H as (unset & _ & H);
    (destruct (str_eq value unset); [injection H as <-; left; reflexivity|]).
  - rewrite TYPES_count, bind_Ok in H.
    destruct (range_check (Some 0%Z) None value) as [n|] eqn:Hr;
      [|discriminate].
    injection H as <-. apply range_check_Ok in Hr as (Hn & Hlo & _).
    right. exists n. specialize (Hlo _ eq_refl). auto.
  - rewrite TYPES_port, bind_Ok in H.
    destruct (range_check (Some 0%Z) (Some (2 ^ 16)%Z) value) as [n|] eqn:Hr;
      [|discriminate].
    injection H as <-. apply range_check_Ok in Hr as (Hn & Hlo & Hhi).
    right. exists n. specialize (Hlo _ eq_refl). specialize (Hhi _ eq_refl).
    change (2 ^ 16)%Z with 65536%Z in Hhi. auto.
Qed.

Lemma count_port_results_in_range_witness :
  exists n, @VInt bare_runtime 443 = VInt n /\
            @py_int bare_runtime (py "443") = Ok n /\ (0 <= n < 65536)%Z.
Proof.
  destruct (count_port_results_in_range (sample_reader true) (py "443")
              (VInt 443)) as [_ H].
  destruct H as [H|H]; [vm_compute; reflexivity | discriminate | exact H].
Defined.

(** X9. [range_check(minv, maxv)] for every choice of bounds, also the
    two that [TYPES] does not use: the caster returns [n] exactly when
    [int] reads the value as [n], [minv <= n] if there is a [minv] and
    [n < maxv] if there is a [maxv]. A value [int] rejects raises what
    [int] raises; a value out of range raises [ValueError] with the
    message of the bounds that are given. *)
Theorem range_check_bounds {RT : Runtime} (minv maxv : option Z) (val : str) :
  (forall n, range_check minv maxv val = Ok n <->
     py_int val = Ok n /\
     (forall lo, minv = Some lo -> (lo <= n)%Z) /\
     (forall hi, maxv = Some hi -> (n < hi)%Z)) /\
  (forall e, py_int val = Raise e -> range_check minv maxv val = Raise e) /\
  (forall n e, py_int val = Ok n -> range_check minv maxv val = Raise e ->
     match minv, maxv with
     | Some lo, Some hi =>
         e = ValueError (NotBetween n lo hi) /\ ~ (lo <= n < hi)%Z
     | None, Some hi => e = ValueError (NotLessThan n hi) /\ (hi <= n)%Z
     | Some lo, None => e = ValueError (NotGreaterEq n lo) /\ (n < lo)%Z
     | None, None => False
     end).
Proof.
  split; [intros n; apply range_check_Ok|]. split.
  - intros e He. unfold range_check.
    destruct minv, maxv; rewrite He; reflexivity.
  - intros n e Hn. unfold range_check.
    destruct minv as [lo|], maxv as [hi|]; rewrite Hn; simpl.
    + destruct (Z.leb_spec lo n), (Z.ltb_spec n hi); simpl;
        try discriminate; intros [= <-]; split; try reflexivity; lia.
    + destruct (Z.leb_spec lo n); try discriminate.
      intros [= <-]. split; [reflexivity | lia].
    + destruct (Z.ltb_spec n hi); try discriminate.
      intros [= <-]. split; [reflexivity | lia].
    + discriminate.
Qed.

Section NestedHelpers.
Context {RT : Runtime}.

Lemma span_app (p : N -> bool) (a b : str) :
  forallb p a = true ->
  match b with c :: _ => p c = false | [] => True end ->
  span p (a ++ b) = (a, b).
Proof.
  intros Ha Hb. induction a as [|x a IH]; simpl.
  - destruct b as [|c b]; [reflexivity|]. simpl. rewrite Hb. reflexivity.
  - simpl in Ha. apply andb_true_iff in Ha as [Hx Ha].
    rewrite Hx, (IH Ha). reflexivity.
Qed.

Lemma TYPES_keys_no_bracket (k : str) : k ∈ TYPES_keys -> 91 ∉ k.
Proof.
  intros H. unfold TYPES_keys in H.
  repeat (apply elem_of_cons in H as [->|H]);
    try (refine (bool_decide_unpack _ _); vm_compute; exact I).
  inversion H.
Qed.

End NestedHelpers.

(** X10. Aggregates do not nest. The element type of a type that matches
    the pattern never matches it again, so an element is always decoded
    as a scalar; and a type written as an aggregate of an aggregate, such
    as [vector[set[addr]]], does not match the pattern at all: it is looked
    up in [TYPES] as one name and raises [KeyError]. *)
Theorem aggregates_do_not_nest {RT : Runtime}
    (type_ agg_type subtype outer : str) :
  AGGREGATE_TYPE_RE_match type_ = Some (agg_type, subtype) ->
  outer <> [] -> forallb is_word outer = true ->
  AGGREGATE_TYPE_RE_match subtype = None /\
  AGGREGATE_TYPE_RE_match (outer ++ [91] ++ type_ ++ [93]) = None /\
  forall (self : BroLogReader) (value : str) (unset : mvalue),
    __getattr__ self (py "unset_field") = Ok unset -> unset <> MStr value ->
    _cast_value self value (outer ++ [91] ++ type_ ++ [93])
    = Raise (KeyError (outer ++ [91] ++ type_ ++ [93])).
Proof.
  intros Hm Hne Hw.
  assert (Hnone : AGGREGATE_TYPE_RE_match (outer ++ [91] ++ type_ ++ [93])
                  = None).
  { apply AGGREGATE_TYPE_RE_match_Some in Hm as (Ha & _ & Hwa & _ & Ht).
    unfold AGGREGATE_TYPE_RE_match.
    rewrite (span_app is_word outer ([91] ++ type_ ++ [93]) Hw)
      by reflexivity.
    destruct outer as [|o outer]; [congruence|]. cbn [app].
    assert (Hs : exists r, span is_word (type_ ++ [93])
                           = (agg_type, 91 :: r)).
    { destruct Ht as [-> | ->]; rewrite <- !app_assoc; eexists;
        apply (span_app is_word agg_type); [exact Hwa | reflexivity
                                           | exact Hwa | reflexivity]. }
    destruct Hs as [r ->]. destruct agg_type; [congruence|]. reflexivity. }
  split; [exact (subtype_is_scalar _ _ _ Hm)|]. split; [exact Hnone|].
  intros self value unset Hu Hnu.
  rewrite (_cast_value_set_scalar _ _ _ _ Hu Hnu Hnone).
  rewrite TYPES_missing; [reflexivity|].
  intros Hin. apply TYPES_keys_no_bracket in Hin. apply Hin.
  apply elem_of_app. right. left.
Qed.

Lemma aggregates_do_not_nest_witness :
  _cast_value (sample_reader true) (py "a,b") (py "vector[set[addr]]")
  = Raise (KeyError (py "vector[set[addr]]")).
Proof.
  destruct (@aggregates_do_not_nest bare_runtime (py "set[addr]") (py "set")
              (py "addr") (py "vector")) as (_ & _ & H);
    [vm_compute; reflexivity | discriminate | reflexivity |].
  apply (H (sample_reader true) (py "a,b") (MStr (py "-")));
    [vm_compute; reflexivity | discriminate].
Defined.

Section IterHelpers.
Context {RT : Runtime}.

Lemma AGGREGATE_TYPE_RE_match_char (c : N) : AGGREGATE_TYPE_RE_match [c] = None.
Proof.
  unfold AGGREGATE_TYPE_RE_match. cbn [span].
  destruct (is_word c); reflexivity.
Qed.

Lemma TYPES_keys_not_char (c : N) : [c] ∉ TYPES_keys.
Proof.
  intros H. unfold TYPES_keys in H.
  repeat (apply elem_of_cons in H as [H|H]; [vm_compute in H; discriminate|]).
  inversion H.
Qed.

Lemma dict_set_keys (d : record) (k : str) (v : DecodedValue) :
  (dict_set d k v).*1 = if bool_decide (k ∈ d.*1) then d.*1 else d.*1 ++ [k].
Proof.
  induction d as [|[k0 v0] d IH]; [reflexivity|].
  cbn [dict_set]. destruct (bool_decide_reflect (k0 = k)) as [->|Hne].
  - cbn. rewrite bool_decide_eq_true_2 by left. reflexivity.
  - cbn [fmap list_fmap fst]. change (list_fmap _ _ fst ?l) with (l.*1).
    rewrite IH. case_bool_decide as Hin.
    + rewrite bool_decide_eq_true_2 by (right; exact Hin). reflexivity.
    + rewrite bool_decide_eq_false_2; [reflexivity|].
      intros H. apply elem_of_cons in H as [H|H]; congruence.
Qed.

Lemma dict_fold_keys (pairs : list (str * DecodedValue)) (d : record) :
  NoDup d.*1 ->
  NoDup (fold_left (fun d kv => dict_set d kv.1 kv.2) pairs d).*1 /\
  forall k, k ∈ (fold_left (fun d kv => dict_set d kv.1 kv.2) pairs d).*1
            <-> k ∈ d.*1 \/ k ∈ pairs.*1.
Proof.
  revert d. induction pairs as [|[k0 v0] pairs IH]; intros d Hd.
  - split; [exact Hd|]. intros k. simpl. rewrite elem_of_nil. tauto.
  - cbn [fold_left fst snd].
    assert (Hd' : NoDup (dict_set d k0 v0).*1).
    { rewrite dict_set_keys. case_bool_decide as Hin; [exact Hd|].
      apply NoDup_app. split; [exact Hd|]. split; [|apply NoDup_singleton].
      intros x Hx Hx'. apply list_elem_of_singleton in Hx'. congruence. }
    destruct (IH _ Hd') as [H1 H2]. split; [exact H1|].
    intros k. rewrite H2, dict_set_keys. cbn [fmap list_fmap fst].
    rewrite elem_of_cons. case_bool_decide as Hin.
    + split; [tauto|]. intros [H|[->|H]]; auto.
    + rewrite elem_of_app, list_elem_of_singleton. tauto.
Qed.

Lemma dict_keys (pairs : list (str * DecodedValue)) :
  NoDup (dict pairs).*1 /\ forall k, k ∈ (dict pairs).*1 <-> k ∈ pairs.*1.
Proof.
  destruct (dict_fold_keys pairs [] (NoDup_nil_2)) as [H1 H2].
  split; [exact H1|]. intros k. unfold dict. rewrite H2. simpl.
  rewrite elem_of_nil. tauto.
Qed.

Lemma dict_get_is_Some (d : record) (k : str) :
  is_Some (dict_get d k) <-> k ∈ d.*1.
Proof.
  induction d as [|[k0 v0] d IH]; simpl.
  - rewrite elem_of_nil. split; [intros [? [=]] | tauto].
  - rewrite elem_of_cons. case_bool_decide as E.
    + subst. split; [auto | eauto].
    + rewrite IH. split; [auto | intros [->|H]; [congruence | exact H]].
Qed.

Lemma iterate_next (self : BroLogReader) (logfile : list str) :
  iterate self logfile
  = match next_record self logfile with
    | NextRecord rec self' rest =>
        {| yielded := rec :: yielded (iterate self' rest);
           raised := raised (iterate self' rest);
           reader := reader (iterate self' rest) |}
    | NextStop self' => {| yielded := []; raised := None; reader := self' |}
    | NextRaise e self' => {| yielded := []; raised := Some e; reader := self' |}
    end.
Proof.
  revert self. induction logfile as [|line logfile IH]; intros self;
    [reflexivity|].
  cbn [iterate next_record].
  destruct (process_line self line) as [[self' [rec|]]|]; auto.
Qed.

End IterHelpers.

(** X11. A schema of exactly one column does not work. [maybe_singleton]
    stores the single token of a [#types] line as a string, and
    [zip(values, types)] then walks the characters of that string: the
    first cell of a data line is cast with the first character of the
    type name as its type, which is no key of [TYPES], so the line raises
    [KeyError] with that character (unless the cell is the unset marker). *)
Theorem single_type_is_read_by_character {RT : Runtime} (self : BroLogReader)
    (line : str) (sc : N) (sep : str) (c : N) (rest : str) (unset : mvalue)
    (cell : str) (cells : list str) :
  startswith 35 line = false ->
  __getattr__ self (py "separator") = Ok (MStr (sc :: sep)) ->
  _metadata self !! py "types" = Some (maybe_singleton [c :: rest]) ->
  __getattr__ self (py "unset_field") = Ok unset ->
  split (sc :: sep) (rstrip 10 line) = cell :: cells ->
  unset <> MStr cell ->
  process_line self line = Raise (KeyError [c]).
Proof.
  intros Hl Hs Ht Hu Hsplit Hne.
  rewrite (process_data_line _ _ Hl), (data_line_eq _ _ _ _ _ Hs Ht).
  unfold _cast_values. cbn [maybe_singleton py_iter map].
  rewrite bind_Ok, Hsplit. cbn [zip_with mapM fst snd].
  rewrite (_cast_value_set_scalar _ _ _ _ Hu Hne
             (AGGREGATE_TYPE_RE_match_char c)).
  rewrite (TYPES_missing _ (TYPES_keys_not_char c)). reflexivity.
Qed.

Lemma single_type_is_read_by_character_witness :
  __getattr__ one_column_reader (py "types") = Ok (MStr (py "count")) /\
  process_line one_column_reader (py "7" ++ [10]) = Raise (KeyError (py "c")).
Proof.
  split; [vm_compute; reflexivity|].
  apply (single_type_is_read_by_character one_column_reader (py "7" ++ [10])
           32 [] 99 (py "ount") (MStr (py "-")) (py "7") []);
    try (vm_compute; reflexivity).
  discriminate.
Defined.

(** X12. Lines that start with [#] never become records, and every
    other line becomes exactly one: a run yields at most as many records
    as the log has data lines, and exactly as many when nothing was
    raised. *)
Theorem one_record_per_data_line {RT : Runtime} (self : BroLogReader)
    (logfile : list str) :
  (length (yielded (iterate self logfile)) <= length (data_lines logfile))%nat /\
  (raised (iterate self logfile) = None ->
   length (yielded (iterate self logfile)) = length (data_lines logfile)).
Proof.
  revert self. induction logfile as [|line logfile IH]; intros self.
  - split; [simpl; lia | reflexivity].
  - cbn [iterate]. unfold data_lines. rewrite filter_cons.
    fold (data_lines logfile).
    destruct (process_line self line) as [[self' y]|e] eqn:Hp.
    + apply process_line_Ok in Hp. destruct (IH self') as [IH1 IH2].
      destruct (startswith 35 line).
      * destruct Hp as (_ & _ & _ & _ & _ & -> & _).
        rewrite decide_False by discriminate. auto.
      * destruct Hp as (_ & rec & _ & ->).
        rewrite decide_True by reflexivity. cbn. split; [lia|].
        intros H. rewrite (IH2 H). reflexivity.
    + cbn. split; [lia | discriminate].
Qed.

(** X13. An exception ends the run: the lines after the one that raised
    are never read, so the outcome is that of the log cut after it. And
    in every case, what a log has yielded stays at the front of what any
    longer log yields. *)
Theorem error_ends_the_run {RT : Runtime} (self : BroLogReader)
    (pre post : list str) :
  (forall e, raised (iterate self pre) = Some e ->
             iterate self (pre ++ post) = iterate self pre) /\
  yielded (iterate self pre) `prefix_of` yielded (iterate self (pre ++ post)).
Proof.
  rewrite iterate_app. split.
  - intros e He. rewrite He. reflexivity.
  - destruct (raised (iterate self pre)).
    + exists []. rewrite app_nil_r. reflexivity.
    + cbn. eexists. reflexivity.
Qed.

(** X14. The keys of a record. A record that a data line yields holds
    each key once, looking a key up succeeds exactly for the keys it
    holds, and every key is one of the items that iterating [fields]
    gives: one of the declared names when the header declares several (or
    none), and a single character of the name when the header declares
    one name, which [maybe_singleton] keeps as a string. *)
Theorem record_keys_are_fields {RT : Runtime} (self self' : BroLogReader)
    (line : str) (rec : record) :
  process_line self line = Ok (self', Some rec) ->
  exists fields,
    __getattr__ self (py "fields") ≫= py_iter = Ok fields /\
    NoDup rec.*1 /\
    (forall k, k ∈ rec.*1 -> k ∈ fields) /\
    (forall k, is_Some (dict_get rec k) <-> k ∈ rec.*1) /\
    (forall names, __getattr__ self (py "fields") = Ok (MTuple names) ->
                   forall k, k ∈ rec.*1 -> k ∈ names) /\
    (forall name, __getattr__ self (py "fields") = Ok (MStr name) ->
                  forall k, k ∈ rec.*1 -> exists c, c ∈ name /\ k = [c]).
Proof.
  intros Hp. pose proof (process_line_Ok _ _ _ _ Hp) as Hinv.
  destruct (startswith 35 line).
  - destruct Hinv as (_ & _ & _ & _ & _ & [=] & _).
  - destruct Hinv as (_ & rec' & Hd & [= <-]).
    apply data_line_Ok in Hd
      as (c & sep & types & values & fields & _ & _ & _ & Hf & ->).
    exists fields. split; [exact Hf|].
    destruct (dict_keys (zip fields values)) as [H1 H2].
    assert (Hin : forall k, k ∈ (dict (zip fields values)).*1 -> k ∈ fields).
    { intros k Hk. apply H2 in Hk. rewrite fst_zip_take in Hk.
      rewrite <- (take_drop (length values) fields).
      apply elem_of_app. left. exact Hk. }
    split; [exact H1|]. split; [exact Hin|].
    split; [intros k; apply dict_get_is_Some|].
    apply bind_res_Ok_inv in Hf as (m & Hm & Hfl). split.
    + intros names Hn k Hk. rewrite Hn in Hm. injection Hm as <-.
      injection Hfl as <-. exact (Hin k Hk).
    + intros name Hn k Hk. rewrite Hn in Hm. injection Hm as <-.
      injection Hfl as <-. apply Hin in Hk.
      apply list_elem_of_fmap in Hk as (ch & -> & Hch). eauto.
Qed.

Lemma record_keys_are_fields_witness :
  (forall k, k ∈ [(py "a", @VInt bare_runtime 2)].*1 -> k ∈ [py "a"; py "a"]) /\
  (forall k, k ∈ [(py "a", @VNone bare_runtime); (py "b", VNone)].*1 ->
             exists c, c ∈ py "ab" /\ k = [c]).
Proof.
  split.
  - destruct (record_keys_are_fields twin_fields_reader twin_fields_reader
                (py "1 2 3" ++ [10]) [(py "a", VInt 2)]
                ltac:(vm_compute; reflexivity))
      as (fields & _ & _ & _ & _ & H & _).
    apply H. vm_compute. reflexivity.
  - destruct (record_keys_are_fields one_name_reader one_name_reader
                (py "- -" ++ [10]) [(py "a", VNone); (py "b", VNone)]
                ltac:(vm_compute; reflexivity))
      as (fields & _ & _ & _ & _ & _ & H).
    apply H. vm_compute. reflexivity.
Defined.

Section EscapeHelpers.
Context {RT : Runtime}.

Lemma high_byte_no_backslash (a x : N) : 92 < a -> a + x <> 92.
Proof. lia. Qed.

(** Bytes without a backslash pass through the decoder. *)
Lemma esc_go_plain (bytes out : list N) :
  Forall (fun b => b <> 92) bytes ->
  esc_go EPlain out bytes = Ok (reverse out ++ bytes).
Proof.
  intros H. revert out. induction H as [|b bytes Hb _ IH]; intros out.
  - simpl. rewrite app_nil_r. reflexivity.
  - cbn [esc_go]. rewrite (proj2 (N.eqb_neq b 92) Hb), IH.
    rewrite reverse_cons, <- app_assoc. reflexivity.
Qed.

Lemma utf8_encode_one (c : N) :
  utf8_encode [c] = (bs ← utf8_encode_char c; Ok bs).
Proof.
  unfold utf8_encode. cbn [mapM].
  destruct (utf8_encode_char c) as [bs|e]; [|reflexivity].
  cbn. rewrite app_nil_r. reflexivity.
Qed.

(** What the codec makes of one character. *)
Lemma unicode_escape_decode_one (c : N) :
  (c < 128 -> c <> 92 -> unicode_escape_decode [c] = Ok [c]) /\
  (c = 92 -> unicode_escape_decode [c] = Raise UnicodeDecodeError) /\
  (128 <= c ->
   unicode_escape_decode [c] = Raise UnicodeEncodeError \/
   exists u, unicode_escape_decode [c] = Ok u /\ (2 <= length u)%nat).
Proof.
  unfold unicode_escape_decode. rewrite utf8_encode_one.
  unfold utf8_encode_char. split; [|split].
  - intros Hc Hne. rewrite (proj2 (N.ltb_lt c 128) Hc), !bind_Ok.
    apply esc_go_plain. constructor; [exact Hne | constructor].
  - intros ->. reflexivity.
  - intros Hc. rewrite (proj2 (N.ltb_ge c 128) Hc).
    destruct (c <? 2048); [|destruct (c <? 65536);
      [destruct ((55296 <=? c) && (c <=? 57343)); [left; reflexivity|]|]];
      right; rewrite !bind_Ok; rewrite esc_go_plain;
      try (eexists; split; [reflexivity | simpl; lia]);
      repeat (constructor; [apply high_byte_no_backslash; reflexivity|]);
      constructor.
Qed.

End EscapeHelpers.

(** X15. A separator written as itself. For the keys [separator] and
    [set_separator] and a value of one character: an ASCII character
    other than the backslash is stored as it is; a lone backslash raises
    [UnicodeDecodeError]; and a character beyond ASCII never becomes the
    separator, because the codec works on the UTF-8 bytes of the value
    and gives back two characters or more (or cannot encode it): the line
    raises [BroLogFormatError] (or [UnicodeEncodeError]). *)
Theorem one_character_separator_value {RT : Runtime} (key : str) (c : N) :
  key = py "separator" \/ key = py "set_separator" ->
  (c < 128 -> c <> 92 -> header_value key (MStr [c]) = Ok (MStr [c])) /\
  (c = 92 -> header_value key (MStr [c]) = Raise UnicodeDecodeError) /\
  (128 <= c ->
   header_value key (MStr [c]) = Raise UnicodeEncodeError \/
   exists u, header_value key (MStr [c]) = Raise (BroLogFormatError u) /\
             (2 <= length u)%nat).
Proof.
  intros Hk.
  assert (Hv : header_value key (MStr [c])
               = (rest ← unicode_escape_decode [c];
                  if bool_decide (length rest ≠ 1%nat)
                  then Raise (BroLogFormatError rest) else Ok (MStr rest))).
  { unfold header_value. destruct Hk as [-> | ->]; reflexivity. }
  rewrite Hv. destruct (unicode_escape_decode_one c) as (H1 & H2 & H3).
  split; [|split].
  - intros Hc Hne. rewrite (H1 Hc Hne). reflexivity.
  - intros Hc. rewrite (H2 Hc). reflexivity.
  - intros Hc. destruct (H3 Hc) as [-> | (u & -> & Hu)]; [left; reflexivity|].
    right. exists u. rewrite bind_Ok.
    rewrite bool_decide_eq_true_2 by lia. auto.
Qed.

Lemma one_character_separator_value_witness :
  @header_value bare_runtime (py "separator") (MStr (py ","))
    = Ok (MStr (py ",")) /\
  (@header_value bare_runtime (py "separator") (MStr [233])
     = Raise UnicodeEncodeError \/
   exists u, @header_value bare_runtime (py "separator") (MStr [233])
               = Raise (BroLogFormatError u) /\ (2 <= length u)%nat).
Proof.
  destruct (@one_character_separator_value bare_runtime (py "separator") 44
              ltac:(left; reflexivity)) as (H1 & _).
  destruct (@one_character_separator_value bare_runtime (py "separator") 233
              ltac:(left; reflexivity)) as (_ & _ & H3).
  split; [apply H1; [reflexivity | discriminate] | apply H3; discriminate].
Defined.

Section DbHelpers.
Context {RT : Runtime}.

Lemma replace_dot_no_dot (f : str) : 46 ∉ replace_dot f.
Proof.
  induction f as [|c f IH]; [apply not_elem_of_nil|].
  cbn [replace_dot map]. fold (replace_dot f).
  apply not_elem_of_cons. split; [|exact IH].
  destruct (N.eqb_spec c 46); [discriminate | congruence].
Qed.

Lemma replace_dot_id (f : str) : 46 ∉ f -> replace_dot f = f.
Proof.
  induction f as [|c f IH]; [reflexivity|]. intros H.
  apply not_elem_of_cons in H as [Hc Hf].
  cbn [replace_dot map]. fold (replace_dot f).
  rewrite (proj2 (N.eqb_neq c 46)) by congruence. rewrite (IH Hf).
  reflexivity.
Qed.

Lemma insert_parameters_keys_fmap (rec : record) :
  ((fun kv : str * DecodedValue => (replace_dot kv.1, kv.2)) <$> rec).*1
  = replace_dot <$> rec.*1.
Proof.
  induction rec as [|[k v] rec IH]; [reflexivity|].
  cbn. f_equal. exact IH.
Qed.

(** After a record has come, the reader holds [fields] and [types]. *)
Lemma next_record_schema (self self' : BroLogReader) (logfile rest : list str)
    (rec : record) :
  next_record self logfile = NextRecord rec self' rest ->
  (exists fields, __getattr__ self' (py "fields") ≫= py_iter = Ok fields) /\
  is_Some (_metadata self' !! py "types") /\
  _decompose_aggregate self' = _decompose_aggregate self.
Proof.
  revert self. induction logfile as [|line logfile IH]; intros self;
    [discriminate|].
  cbn [next_record].
  destruct (process_line self line) as [[self1 [rec1|]]|] eqn:Hp;
    [| |discriminate].
  - intros [= <- <- <-].
    pose proof (process_line_keeps _ _ _ _ Hp) as [Hflag _].
    apply process_line_Ok in Hp. destruct (startswith 35 line).
    + destruct Hp as (_ & _ & _ & _ & _ & [=] & _).
    + destruct Hp as (-> & rec' & Hd & _).
      apply data_line_Ok in Hd
        as (c & sep & types & values & fields & _ & Ht & _ & Hf & _).
      split; [eauto|]. split; [rewrite Ht; eauto | reflexivity].
  - intros H. destruct (IH _ H) as (H1 & H2 & H3).
    pose proof (process_line_keeps _ _ _ _ Hp) as [Hflag _].
    split; [exact H1|]. split; [exact H2 | congruence].
Qed.

Lemma next_record_header_only (self : BroLogReader) (logfile : list str) :
  Forall (fun line => startswith 35 line = true) logfile ->
  match next_record self logfile with
  | NextRecord _ _ _ => False
  | _ => True
  end.
Proof.
  intros H. revert self. induction H as [|line logfile Hl _ IH]; intros self;
    [exact I|].
  cbn [next_record].
  destruct (process_line self line) as [[self1 [rec1|]]|] eqn:Hp;
    [|apply IH | exact I].
  apply process_line_Ok in Hp. rewrite Hl in Hp.
  destruct Hp as (_ & _ & _ & _ & _ & [=] & _).
Qed.

End DbHelpers.

(** X16. Column names ([db.py]). [f.replace('.', '_')] gives a name of
    the same length without any dot and leaves a name without dots as it
    is; two field names that differ only in a dot against an underscore
    become the same column. The columns of a table are the fields of the
    reader, one each, renamed so. *)
Theorem table_columns_have_no_dot {RT : Runtime} (self : BroLogReader)
    (cols : list str) :
  table_columns self = Ok cols ->
  (exists fields,
     __getattr__ self (py "fields") ≫= py_iter = Ok fields /\
     cols = replace_dot <$> fields) /\
  Forall (fun col => 46 ∉ col) cols /\
  (forall f, length (replace_dot f) = length f /\
             (46 ∉ f -> replace_dot f = f) /\
             replace_dot (replace_dot f) = replace_dot f) /\
  (forall a b, replace_dot (a ++ [46] ++ b) = replace_dot (a ++ [95] ++ b)).
Proof.
  unfold table_columns. intros H.
  apply bind_res_Ok_inv in H as (fields & Hf & H).
  apply bind_res_Ok_inv in H as (fl & Hfl & [= <-]).
  split; [exists fl; split; [rewrite Hf, bind_Ok; exact Hfl | reflexivity]|].
  split; [apply Forall_fmap, Forall_forall; intros f _;
          apply replace_dot_no_dot|].
  split.
  - intros f. split; [apply length_map|].
    split; [apply replace_dot_id|].
    apply replace_dot_id, replace_dot_no_dot.
  - intros a b. unfold replace_dot. rewrite !map_app. reflexivity.
Qed.

Lemma table_columns_have_no_dot_witness :
  Forall (fun col => 46 ∉ col) [py "id_orig_p"; py "proto"; py "tags"].
Proof.
  apply (table_columns_have_no_dot (sample_reader false)
           [py "id_orig_p"; py "proto"; py "tags"]).
  vm_compute. reflexivity.
Defined.

(** X17. Reading one record ahead ([db.py], [first = next(records)]).
    When [next] gives a record, the reader holds [fields] and [types] at
    that moment, so the columns of the table can be computed, the flag
    [decompose_aggregate] is still the one given, and the record put in
    front of what the generator still yields is the whole sequence. A log
    in which every line starts with [#] gives no record to [next]. *)
Theorem first_record_brings_the_schema {RT : Runtime} (self : BroLogReader)
    (logfile : list str) :
  (forall rec self' rest,
     next_record self logfile = NextRecord rec self' rest ->
     (exists cols, table_columns self' = Ok cols) /\
     is_Some (_metadata self' !! py "types") /\
     _decompose_aggregate self' = _decompose_aggregate self /\
     yielded (iterate self logfile) = rec :: yielded (iterate self' rest)) /\
  (Forall (fun line => startswith 35 line = true) logfile ->
   forall rec self' rest,
     next_record self logfile <> NextRecord rec self' rest).
Proof.
  split.
  - intros rec self' rest H.
    destruct (next_record_schema _ _ _ _ _ H) as ([fields Hf] & Ht & Hd).
    split; [|split; [exact Ht | split; [exact Hd|]]].
    + exists (replace_dot <$> fields). unfold table_columns.
      apply bind_res_Ok_inv in Hf as (m & -> & Hm).
      rewrite bind_Ok, Hm. reflexivity.
    + rewrite iterate_next, H. reflexivity.
  - intros Hall rec self' rest H.
    pose proof (next_record_header_only self logfile Hall) as Hn.
    rewrite H in Hn. exact Hn.
Qed.

Lemma first_record_brings_the_schema_witness :
  exists cols,
    table_columns (sample_reader false) = Ok cols /\
    @next_record bare_runtime (__init__ false)
      (bro_header ++ [py "80" ++ [9] ++ py "tcp" ++ [9] ++ py "1,2" ++ [10]])
    = NextRecord [(py "id.orig_p", VInt 80); (py "proto", VStr (py "tcp"));
                  (py "tags", VStr (py "1,2"))]
                 (sample_reader false) [].
Proof.
  assert (Hn : @next_record bare_runtime (__init__ false)
                 (bro_header
                  ++ [py "80" ++ [9] ++ py "tcp" ++ [9] ++ py "1,2" ++ [10]])
               = NextRecord [(py "id.orig_p", VInt 80);
                             (py "proto", VStr (py "tcp"));
                             (py "tags", VStr (py "1,2"))]
                            (sample_reader false) [])
    by (vm_compute; reflexivity).
  destruct (@first_record_brings_the_schema bare_runtime (__init__ false)
              (bro_header
               ++ [py "80" ++ [9] ++ py "tcp" ++ [9] ++ py "1,2" ++ [10]]))
    as [H _].
  destruct (H _ _ _ Hn) as ([cols Hc] & _).
  exists cols. split; [exact Hc | exact Hn].
Defined.

Section ParameterHelpers.
Context {RT : Runtime}.

Lemma insert_parameters_keys (rec : record) :
  NoDup (insert_parameters rec).*1 /\
  forall k, k ∈ (insert_parameters rec).*1 <->
            exists k0, k0 ∈ rec.*1 /\ k = replace_dot k0.
Proof.
  unfold insert_parameters.
  destruct (dict_keys (map (fun kv : str * DecodedValue =>
                              (replace_dot kv.1, kv.2)) rec)) as [H1 H2].
  split; [exact H1|]. intros k. rewrite H2.
  change (map ?f rec) with (f <$> rec).
  rewrite insert_parameters_keys_fmap, list_elem_of_fmap.
  split; intros (k0 & Ha & Hb); exists k0; auto.
Qed.

End ParameterHelpers.

(** X18. The parameters of an insert ([db.py], the dict comprehension over
    [rec.items()]). The renamed record holds each key once and without a
    dot; its keys are the renamed keys of the record; it is never longer
    than the record; and when no two keys are renamed to the same name it
    is the record itself with renamed keys, same values in the same order
    (so [None] stays [None]). *)
Theorem insert_parameters_rename {RT : Runtime} (rec : record) :
  NoDup (insert_parameters rec).*1 /\
  (forall k, k ∈ (insert_parameters rec).*1 <->
             exists k0, k0 ∈ rec.*1 /\ k = replace_dot k0) /\
  Forall (fun k => 46 ∉ k) (insert_parameters rec).*1 /\
  (length (insert_parameters rec) <= length rec)%nat /\
  (NoDup (replace_dot <$> rec.*1) ->
   insert_parameters rec
   = (fun kv : str * DecodedValue => (replace_dot kv.1, kv.2)) <$> rec).
Proof.
  destruct (insert_parameters_keys rec) as [H1 Hk].
  split; [exact H1|]. split; [exact Hk|]. split; [|split].
  - apply Forall_forall. intros k Hin. apply Hk in Hin as (k0 & _ & ->).
    apply replace_dot_no_dot.
  - unfold insert_parameters. etrans; [apply dict_length|].
    rewrite length_map. reflexivity.
  - intros Hnd. unfold insert_parameters. apply dict_NoDup.
    change (map ?f rec) with (f <$> rec).
    rewrite insert_parameters_keys_fmap. exact Hnd.
Qed.

Lemma insert_parameters_rename_witness :
  @insert_parameters bare_runtime
     [(py "id.orig_p", VInt 80); (py "proto", VNone)]
  = [(py "id_orig_p", VInt 80); (py "proto", VNone)].
Proof.
  destruct (@insert_parameters_rename bare_runtime
              [(py "id.orig_p", VInt 80); (py "proto", VNone)])
    as (_ & _ & _ & _ & H).
  rewrite H; [reflexivity|].
  apply (bool_decide_unpack _). vm_compute. exact I.
Defined.

(** X19. Which placeholders get a value ([db.py], [cur.execute(insert,
    rec)]). For the record of a data line and the columns computed from
    the same reader: when the line has at least as many cells as there
    are fields and there are at least as many types, every column is a
    key of the parameters; when the record has fewer entries than there
    are (distinct) columns, as with a line that is too short, some column
    has no value among the parameters. *)
Theorem placeholders_of_a_data_line {RT : Runtime} (self self' : BroLogReader)
    (line : str) (rec : record) (cols : list str) :
  process_line self line = Ok (self', Some rec) ->
  table_columns self = Ok cols ->
  (forall c sep types tl,
     __getattr__ self (py "separator") = Ok (MStr (c :: sep)) ->
     _metadata self !! py "types" = Some types -> py_iter types = Ok tl ->
     (length cols <= length (split (c :: sep) (rstrip 10 line)))%nat ->
     (length cols <= length tl)%nat ->
     Forall (fun col => is_Some (dict_get (insert_parameters rec) col)) cols) /\
  (NoDup cols -> (length rec < length cols)%nat ->
   Exists (fun col => dict_get (insert_parameters rec) col = None) cols).
Proof.
  intros Hp Hc.
  destruct (insert_parameters_keys rec) as [Hk1 Hk2].
  split.
  - intros c sep types tl Hs Ht Htl Hcells Htypes.
    apply process_line_Ok in Hp. destruct (startswith 35 line).
    { destruct Hp as (_ & _ & _ & _ & _ & [=] & _). }
    destruct Hp as (_ & rec' & Hd & [= <-]).
    apply data_line_Ok in Hd
      as (c' & sep' & types' & values & fields & Hs' & Ht' & Hv & Hf & ->).
    rewrite Hs in Hs'. injection Hs' as <- <-.
    rewrite Ht in Ht'. injection Ht' as <-.
    unfold table_columns in Hc.
    apply bind_res_Ok_inv in Hf as (m & Hm & Hfl).
    rewrite Hm, bind_Ok, Hfl, bind_Ok in Hc. injection Hc as <-.
    rewrite length_map in Hcells, Htypes.
    unfold _cast_values in Hv. rewrite Htl, bind_Ok in Hv.
    apply mapM_res_length in Hv. rewrite length_zip_with in Hv.
    apply Forall_fmap, Forall_forall. intros f Hin. cbn.
    apply dict_get_is_Some, Hk2. exists f. split; [|reflexivity].
    apply (proj2 (dict_keys (zip fields values))).
    rewrite fst_zip_take, take_ge by lia. exact Hin.
  - intros Hnd Hlen.
    destruct (decide (Exists (fun col => dict_get (insert_parameters rec) col
                                         = None) cols)) as [H|H];
      [exact H | exfalso].
    apply not_Exists_Forall in H; [|intros x; apply _].
    assert (Hsub : cols ⊆+ (insert_parameters rec).*1).
    { apply NoDup_submseteq; [exact Hnd|]. intros col Hin.
      apply dict_get_is_Some.
      pose proof (proj1 (Forall_forall _ _) H col Hin) as Hcol. cbn in Hcol.
      destruct (dict_get (insert_parameters rec) col); [eauto | congruence]. }
    apply submseteq_length in Hsub. rewrite length_fmap in Hsub.
    unfold insert_parameters in Hsub.
    pose proof (dict_length (map (fun kv : str * DecodedValue =>
                                    (replace_dot kv.1, kv.2)) rec)) as Hd.
    rewrite length_map in Hd. lia.
Qed.

Lemma placeholders_of_a_data_line_witness :
  Forall (fun col => is_Some (dict_get
            (@insert_parameters bare_runtime
               [(py "id.orig_p", VInt 80); (py "proto", VStr (py "tcp"));
                (py "tags", VStr (py "1,2"))]) col))
         [py "id_orig_p"; py "proto"; py "tags"] /\
  Exists (fun col => dict_get
            (@insert_parameters bare_runtime
               [(py "id.orig_p", VInt 80); (py "proto", VStr (py "tcp"))]) col
            = None)
         [py "id_orig_p"; py "proto"; py "tags"].
Proof.
  split.
  - destruct (placeholders_of_a_data_line (sample_reader false)
                (sample_reader false)
                (py "80" ++ [9] ++ py "tcp" ++ [9] ++ py "1,2" ++ [10])
                [(py "id.orig_p", VInt 80); (py "proto", VStr (py "tcp"));
                 (py "tags", VStr (py "1,2"))]
                [py "id_orig_p"; py "proto"; py "tags"]) as [H _];
      [vm_compute; reflexivity | vm_compute; reflexivity |].
    apply (H 9 [] (MTuple [py "port"; py "enum"; py "vector[count]"])
             [py "port"; py "enum"; py "vector[count]"]);
      try (vm_compute; reflexivity); vm_compute; lia.
  - destruct (placeholders_of_a_data_line (sample_reader false)
                (sample_reader false)
                (py "80" ++ [9] ++ py "tcp" ++ [10])
                [(py "id.orig_p", VInt 80); (py "proto", VStr (py "tcp"))]
                [py "id_orig_p"; py "proto"; py "tags"]) as [_ H];
      [vm_compute; reflexivity | vm_compute; reflexivity |].
    apply H; [|simpl; lia].
    apply (bool_decide_unpack _). vm_compute. exact I.
Defined.

Section IntHelpers.
Context {RT : Runtime}.

Lemma scan_digits_nonneg (s : str) (acc : Z) (prev : N) (n m : nat)
    (v : Z) (rest : str) :
  (0 <= acc)%Z -> scan_digits acc prev n s = Some (v, m, rest) -> (0 <= v)%Z.
Proof.
  revert acc prev n. induction s as [|c s IH]; intros acc prev n Hacc; simpl.
  - destruct (prev =? 95); [discriminate|]. intros [= <- _ _]. exact Hacc.
  - destruct (is_ascii_digit c).
    + apply IH. lia.
    + destruct (c =? 95).
      * destruct (prev =? 95); [discriminate|]. apply IH, Hacc.
      * destruct (prev =? 95); [discriminate|]. intros [= <- _ _]. exact Hacc.
Qed.

Lemma to_ascii_no_minus (c b : N) :
  to_ascii_digit_or_space c = Some b -> c <> 45 -> b <> 45.
Proof.
  unfold to_ascii_digit_or_space. destruct (c <? 128).
  - intros [= <-]. auto.
  - destruct (uni_isspace c); [intros [= <-]; discriminate|].
    destruct (uni_todecimal c); [|discriminate]. intros [= <-] _. lia.
Qed.

(** Without a minus sign there is no negative number. *)
Lemma py_int_nonneg (s : str) (n : Z) :
  py_int s = Ok n -> 45 ∉ s -> (0 <= n)%Z.
Proof.
  unfold py_int. intros H Hs.
  destruct (mapM to_ascii_digit_or_space s) as [b|] eqn:Hb; [|discriminate].
  assert (Hb' : 45 ∉ b).
  { apply mapM_Some in Hb. clear H. induction Hb as [|c x s b Hc _ IH].
    - apply not_elem_of_nil.
    - apply not_elem_of_cons in Hs as [Hc' Hs].
      apply not_elem_of_cons. split; [|exact (IH Hs)].
      intros E. symmetry in E. revert E. apply (to_ascii_no_minus c); congruence. }
  destruct (span is_ascii_space b) as [a b1] eqn:Hspan.
  apply span_spec in Hspan as (-> & _ & _). cbn [snd] in H.
  assert (Hb1 : 45 ∉ b1).
  { intros E. apply Hb'. apply elem_of_app. right. exact E. }
  destruct b1 as [|x b2].
  - simpl in H. discriminate.
  - apply not_elem_of_cons in Hb1 as [Hx _].
    assert (Hcase : x = 43 \/ x <> 43) by lia.
    destruct Hcase as [-> | Hx43].
    + destruct b2 as [|y b3]; [simpl in H; discriminate|].
      destruct (N.eq_dec y 95) as [->|Hy]; [discriminate|].
      replace (match y :: b3 with 95 :: _ => Raise (ValueError (InvalidLiteral s))
               | _ => match scan_digits 0 0 0 (y :: b3) with
                      | Some (v, S _, rest) =>
                          if forallb is_ascii_space rest then Ok (1 * v)%Z
                          else Raise (ValueError (InvalidLiteral s))
                      | _ => Raise (ValueError (InvalidLiteral s)) end end)
        with (match scan_digits 0 0 0 (y :: b3) with
              | Some (v, S _, rest) =>
                  if forallb is_ascii_space rest then Ok (1 * v)%Z
                  else Raise (ValueError (InvalidLiteral s))
              | _ => Raise (ValueError (InvalidLiteral s)) end) in H.
      2:{ destruct y as [|y]; [reflexivity|].
          do 7 (try (destruct y as [y|y|]; try reflexivity; try congruence)). }
      destruct (scan_digits 0 0 0 (y :: b3)) as [[[v [|m]] rest]|] eqn:Hscan;
        try discriminate.
      destruct (forallb is_ascii_space rest); [|discriminate].
      injection H as <-. apply scan_digits_nonneg in Hscan; lia.
    + assert (Hsign : (match x :: b2 with
                       | 43 :: r => (1%Z, r)
                       | 45 :: r => ((-1)%Z, r)
                       | _ => (1%Z, x :: b2)
                       end) = (1%Z, x :: b2)).
      { destruct x as [|x]; [reflexivity|].
        do 7 (try (destruct x as [x|x|]; try reflexivity; try congruence)). }
      rewrite Hsign in H.
      destruct (N.eq_dec x 95) as [->|Hy]; [discriminate|].
      replace (match x :: b2 with 95 :: _ => Raise (ValueError (InvalidLiteral s))
               | _ => match scan_digits 0 0 0 (x :: b2) with
                      | Some (v, S _, rest) =>
                          if forallb is_ascii_space rest then Ok (1 * v)%Z
                          else Raise (ValueError (InvalidLiteral s))
                      | _ => Raise (ValueError (InvalidLiteral s)) end end)
        with (match scan_digits 0 0 0 (x :: b2) with
              | Some (v, S _, rest) =>
                  if forallb is_ascii_space rest then Ok (1 * v)%Z
                  else Raise (ValueError (InvalidLiteral s))
              | _ => Raise (ValueError (InvalidLiteral s)) end) in H.
      2:{ destruct x as [|x]; [reflexivity|].
          do 7 (try (destruct x as [x|x|]; try reflexivity; try congruence)). }
      destruct (scan_digits 0 0 0 (x :: b2)) as [[[v [|m]] rest]|] eqn:Hscan;
        try discriminate.
      destruct (forallb is_ascii_space rest); [|discriminate].
      injection H as <-. apply scan_digits_nonneg in Hscan; lia.
Qed.

End IntHelpers.

(** X20. The directives [open] and [close]. A value of several tokens (or
    of none) raises [AttributeError]: a tuple has no [split]. A value of
    one token is cut at every [-] and each piece is read by [int]; the
    first piece [int] rejects makes the line raise what [int] raises.
    Otherwise [datetime.datetime] is called with one number for each
    piece, in order, and none of these numbers is negative, since no
    piece holds a minus sign. *)
Theorem open_close_directive {RT : Runtime} (key : str) :
  key = py "open" \/ key = py "close" ->
  (forall l, header_value key (MTuple l) = Raise (AttributeError (py "split"))) /\
  (forall s e, mapM py_int (split (py "-") s) = Raise e ->
               header_value key (MStr s) = Raise e) /\
  (forall s parts, mapM py_int (split (py "-") s) = Ok parts ->
     header_value key (MStr s) = MDatetime <$> datetime_new parts /\
     Forall (fun n => (0 <= n)%Z) parts /\
     length parts = S (length (filter (fun x => x = 45) s))).
Proof.
  intros Hk.
  assert (Hv : forall rest, header_value key rest
               = match rest with
                 | MStr s =>
                     parts ← mapM py_int (split (py "-") s);
                     MDatetime <$> datetime_new parts
                 | _ => Raise (AttributeError (py "split"))
                 end).
  { intros rest. unfold header_value. destruct Hk as [-> | ->]; reflexivity. }
  split; [|split].
  - intros l. rewrite Hv. reflexivity.
  - intros s e He. rewrite Hv, He. reflexivity.
  - intros s parts Hp. rewrite Hv, Hp, bind_Ok. split; [reflexivity|].
    apply mapM_res_Ok in Hp.
    destruct (split_go_char_pieces 45 s [] ltac:(apply not_elem_of_nil))
      as [Hpieces Hlen].
    change (split_go [45] 0 [] s) with (split (py "-") s) in Hpieces, Hlen.
    split.
    + clear Hlen. induction Hp as [|piece n pieces parts Hn _ IH];
        [constructor|].
      apply Forall_cons in Hpieces as [Hpiece Hpieces].
      constructor; [exact (py_int_nonneg _ _ Hn Hpiece) | exact (IH Hpieces)].
    + rewrite <- Hlen. symmetry. eapply Forall2_length, Hp.
Qed.

Lemma open_close_directive_witness :
  @header_value bare_runtime (py "open") (MStr (py "2015-03-01-12-00-59"))
    = MDatetime <$> datetime_new [2015; 3; 1; 12; 0; 59]%Z /\
  @header_value bare_runtime (py "open") (MStr (py "2015--03"))
    = Raise (ValueError (InvalidLiteral (py ""))).
Proof.
  destruct (@open_close_directive bare_runtime (py "open")
              ltac:(left; reflexivity)) as (_ & H2 & H3).
  split.
  - apply (H3 (py "2015-03-01-12-00-59") [2015; 3; 1; 12; 0; 59]%Z).
    vm_compute. reflexivity.
  - apply H2. vm_compute. reflexivity.
Defined.

Section FrameHelpers.
Context {RT : Runtime}.

Lemma getattr_agree (self1 self2 : BroLogReader) (name : str) :
  _metadata self1 !! name = _metadata self2 !! name ->
  __getattr__ self1 name = __getattr__ self2 name.
Proof. intros H. unfold __getattr__. rewrite H. reflexivity. Qed.

Lemma cast_value_body_agree (f g : str -> str -> res DecodedValue)
    (self1 self2 : BroLogReader) (value type_ : str) :
  _decompose_aggregate self1 = _decompose_aggregate self2 ->
  _metadata self1 !! py "unset_field" = _metadata self2 !! py "unset_field" ->
  _metadata self1 !! py "empty_field" = _metadata self2 !! py "empty_field" ->
  _metadata self1 !! py "set_separator"
    = _metadata self2 !! py "set_separator" ->
  (forall v t, f v t = g v t) ->
  cast_value_body f self1 value type_ = cast_value_body g self2 value type_.
Proof.
  intros Hd Hu He Hs Hfg. unfold cast_value_body.
  rewrite (getattr_agree _ _ _ Hu), (getattr_agree _ _ _ He),
    (getattr_agree _ _ _ Hs), Hd.
  apply bind_res_ext; intros unset _.
  destruct (str_eq value unset); [reflexivity|].
  destruct (AGGREGATE_TYPE_RE_match type_) as [[agg_type subtype]|];
    [|reflexivity].
  destruct (_decompose_aggregate self2); [|reflexivity].
  apply bind_res_ext; intros empty _.
  destruct (str_eq value empty); [reflexivity|].
  apply bind_res_ext; intros ctor _.
  apply bind_res_ext; intros sep _.
  apply bind_res_ext; intros pieces _.
  erewrite mapM_res_ext; [reflexivity|]. intros v _. apply Hfg.
Qed.

End FrameHelpers.

(** X21. What decoding reads of the reader. [_cast_value] looks at the
    flag [decompose_aggregate] and at the keys [unset_field],
    [empty_field] and [set_separator], and at nothing else: two readers
    that agree on these decode every cell of every type alike, whatever
    their [separator], [fields], [types] and other metadata. *)
Theorem decoding_reads_three_keys {RT : Runtime} (self1 self2 : BroLogReader)
    (value type_ : str) :
  _decompose_aggregate self1 = _decompose_aggregate self2 ->
  _metadata self1 !! py "unset_field" = _metadata self2 !! py "unset_field" ->
  _metadata self1 !! py "empty_field" = _metadata self2 !! py "empty_field" ->
  _metadata self1 !! py "set_separator"
    = _metadata self2 !! py "set_separator" ->
  _cast_value self1 value type_ = _cast_value self2 value type_.
Proof.
  intros Hd Hu He Hs. unfold _cast_value. cbn [cast_value_depth].
  apply cast_value_body_agree; try assumption.
  intros v t. apply cast_value_body_agree; try assumption.
  reflexivity.
Qed.

Lemma decoding_reads_three_keys_witness :
  _cast_value (sample_reader true) (py "1,2") (py "set[count]")
  = _cast_value (set_metadata (set_metadata (sample_reader true)
                                 (py "separator") (MStr (py ";")))
                   (py "types") (MTuple []))
                (py "1,2") (py "set[count]").
Proof.
  apply decoding_reads_three_keys; vm_compute; reflexivity.
Defined.
